(** * parse_claude_stream.py: the stream relay and its logging hook

    A shallow embedding of [activity_schema/parse_claude_stream.py].  The
    three functions of the script, [log_to_snowflake], [parse_tool_use] and
    [main], are embedded in a state-and-exception monad over the observable
    world of the process (standard output, the diagnostic stream and the
    trace of hook invocations).  The Python library functions the script
    calls ([str.strip], [str], [json.loads], [json.dumps], [float], [repr])
    are modelled in the modules that precede the program. *)

From Stdlib Require Import List ZArith NArith String Ascii Bool Lia.
From Stdlib Require Import DecimalString.
From Stdlib Require Import Floats.SpecFloat.
Import ListNotations.

Set Implicit Arguments.
Local Open Scope list_scope.

(** ** Python strings

    A Python [str] is a sequence of Unicode code points; [len] counts code
    points.  Text literals of the script are ASCII and are written with
    [u]. *)

Module PyStr.

Definition pystr := list N.

Definition u (s : string) : pystr := map N_of_ascii (list_ascii_of_string s).

Arguments u s%_string.

Definition eqb (a b : pystr) : bool :=
  if list_eq_dec N.eq_dec a b then true else false.

Definition len (s : pystr) : Z := Z.of_nat (List.length s).

(** [str.isspace] on one code point (the table of CPython's
    [_PyUnicode_IsWhitespace]). *)
Definition isspace (c : N) : bool :=
  (((9 <=? c) && (c <=? 13)) || ((28 <=? c) && (c <=? 32))
   || (c =? 133) || (c =? 160) || (c =? 5760)
   || ((8192 <=? c) && (c <=? 8202))
   || (c =? 8232) || (c =? 8233) || (c =? 8239) || (c =? 8287)
   || (c =? 12288))%N.

Fixpoint lstrip (s : pystr) : pystr :=
  match s with
  | c :: s' => if isspace c then lstrip s' else s
  | [] => []
  end.

Definition rstrip (s : pystr) : pystr := rev (lstrip (rev s)).

(** [s.strip()] *)
Definition strip (s : pystr) : pystr := rstrip (lstrip s).

(** [str(n)] for an [int]. *)
Definition str_of_int (z : Z) : pystr := u (NilZero.string_of_int (Z.to_int z)).

Definition join (sep : pystr) (parts : list pystr) : pystr :=
  match parts with
  | [] => []
  | p :: ps => p ++ flat_map (fun q => sep ++ q) ps
  end.

End PyStr.
Import PyStr.

(** ** Python floats

    A [float] is an IEEE 754 binary64 number, carried as the Standard
    Library's [spec_float].  [float(text)] rounds the decimal number to the
    nearest binary64 (ties to even); [repr] prints the shortest decimal
    string that reads back as the same float. *)

Module PyFloat.

Local Open Scope Z_scope.

Definition pyfloat := spec_float.

Definition prec := 53.
Definition emax := 1024.

Definition eqb (x y : pyfloat) : bool :=
  match x, y with
  | S754_zero a, S754_zero b => Bool.eqb a b
  | S754_infinity a, S754_infinity b => Bool.eqb a b
  | S754_nan, S754_nan => true
  | S754_finite a m e, S754_finite b n f =>
      Bool.eqb a b && Pos.eqb m n && Z.eqb e f
  | _, _ => false
  end.

(** [neg]: the sign; [m * 10^e]: the magnitude, [0 <= m]. *)
Definition of_decimal (neg : bool) (m e : Z) : pyfloat :=
  match m with
  | Zpos p =>
      if 0 <=? e then
        match m * 10 ^ e with
        | Zpos n => binary_round prec emax neg n 0
        | _ => S754_nan
        end
      else
        let d := 10 ^ (- e) in
        let s := Z.max 0 (64 + Z.log2 d - Z.log2 m) in
        let q := (m * 2 ^ s) / d in
        let r := (m * 2 ^ s) mod d in
        match 2 * q + (if r =? 0 then 0 else 1) with
        | Zpos n => binary_round prec emax neg n (- s - 1)
        | _ => S754_nan
        end
  | _ => S754_zero neg
  end.

(** Is [p / q >= 10 ^ t]?  ([0 < p], [0 < q]) *)
Definition ge_pow10 (p q t : Z) : bool :=
  if 0 <=? t then q * 10 ^ t <=? p else q <=? p * 10 ^ (- t).

Fixpoint log10_adjust (fuel : nat) (p q t : Z) : Z :=
  match fuel with
  | O => t
  | S fuel' =>
      if ge_pow10 p q (t + 1) then log10_adjust fuel' p q (t + 1)
      else if ge_pow10 p q t then t
      else log10_adjust fuel' p q (t - 1)
  end.

(** [floor (log10 (p / q))] *)
Definition floor_log10 (p q : Z) : Z :=
  log10_adjust 8 p q (((Z.log2 p - Z.log2 q) * 30103) / 100000).

Fixpoint strip_zeros (fuel : nat) (c k : Z) : Z * Z :=
  match fuel with
  | O => (c, k)
  | S fuel' =>
      if (c mod 10 =? 0) && (0 <? c) then strip_zeros fuel' (c / 10) (k + 1)
      else (c, k)
  end.

(** The [n]-digit decimal [c * 10^k] next to [p / q] that reads back as
    [x], the nearer one when both neighbours do. *)
Definition candidate (x : pyfloat) (p q : Z) (n : Z) : option (Z * Z) :=
  let k := floor_log10 p q - (n - 1) in
  let a := if 0 <=? k then p else p * 10 ^ (- k) in
  let b := if 0 <=? k then q * 10 ^ k else q in
  let lo := a / b in
  let r := a mod b in
  let hi := lo + 1 in
  let lo_ok := eqb (of_decimal false lo k) x in
  let hi_ok := eqb (of_decimal false hi k) x in
  let lo_near := (2 * r <? b) || ((2 * r =? b) && Z.even lo) in
  if lo_ok && (lo_near || negb hi_ok) then Some (lo, k)
  else if hi_ok then Some (hi, k)
  else None.

Fixpoint shortest (fuel : nat) (x : pyfloat) (p q : Z) (n : Z) : Z * Z :=
  match fuel with
  | O => (0, 0)
  | S fuel' =>
      match candidate x p q n with
      | Some ck => ck
      | None => shortest fuel' x p q (n + 1)
      end
  end.

Definition zeros (n : Z) : pystr := repeat 48%N (Z.to_nat n).

(** [float.__repr__] of the positive number [m * 2^e]. *)
Definition repr_pos (m : positive) (e : Z) : pystr :=
  let p := if 0 <=? e then Zpos m * 2 ^ e else Zpos m in
  let q := if 0 <=? e then 1 else 2 ^ (- e) in
  let '(c0, k0) := shortest 17 (S754_finite false m e) p q 1 in
  let '(c, k) := strip_zeros 20 c0 k0 in
  let digits := str_of_int c in
  let n := len digits in
  let decpt := n + k in
  if (decpt <=? -4) || (16 <? decpt) then
    let x := decpt - 1 in
    let mant :=
      match digits with
      | d :: (_ :: _) as rest => d :: 46%N :: rest
      | _ => digits
      end in
    let ex := str_of_int (Z.abs x) in
    mant ++ [101%N] ++ [if x <? 0 then 45%N else 43%N]
         ++ (if len ex <? 2 then 48%N :: ex else ex)
  else if decpt <=? 0 then
    u "0." ++ zeros (- decpt) ++ digits
  else if n <=? decpt then
    digits ++ zeros (decpt - n) ++ u ".0"
  else
    firstn (Z.to_nat decpt) digits ++ [46%N] ++ skipn (Z.to_nat decpt) digits.

(** [repr(x)], with the spellings [json.dumps] uses for the three
    non-finite values. *)
Definition repr (x : pyfloat) : pystr :=
  match x with
  | S754_nan => u "NaN"
  | S754_infinity false => u "Infinity"
  | S754_infinity true => u "-Infinity"
  | S754_zero false => u "0.0"
  | S754_zero true => u "-0.0"
  | S754_finite false m e => repr_pos m e
  | S754_finite true m e => 45%N :: repr_pos m e
  end.

(** [bool(x)]: every float but the two zeros is true. *)
Definition truthy (x : pyfloat) : bool :=
  match x with
  | S754_zero _ => false
  | _ => true
  end.

End PyFloat.

(** ** Python values and the [json] module

    [value] is the type of the objects [json.loads] returns.  A [dict] keeps
    its keys in insertion order, so it is an association list; [json.loads]
    builds it with [dict_set], which keeps keys distinct. *)

Module Json.

Local Open Scope Z_scope.

#[warnings="-register-all"] Inductive value :=
| VNone
| VBool (b : bool)
| VInt (z : Z)
| VFloat (f : PyFloat.pyfloat)
| VStr (s : pystr)
| VList (l : list value)
| VDict (d : list (pystr * value)).

Definition dict := list (pystr * value).

(** [d.get(key)]: the value, or [None] in Python, here [Datatypes.None]. *)
Fixpoint dict_lookup (d : dict) (key : pystr) : option value :=
  match d with
  | [] => None
  | (k, v) :: d' => if PyStr.eqb k key then Some v else dict_lookup d' key
  end.

(** [d.get(key, default)] *)
Definition dict_get (d : dict) (key : pystr) (default : value) : value :=
  match dict_lookup d key with
  | Some v => v
  | None => default
  end.

(** [d[key] = v] *)
Fixpoint dict_set (d : dict) (key : pystr) (v : value) : dict :=
  match d with
  | [] => [(key, v)]
  | (k, w) :: d' =>
      if PyStr.eqb k key then (k, v) :: d' else (k, w) :: dict_set d' key v
  end.

(** [bool(v)], the test of [x if v else y]. *)
Definition truthy (v : value) : bool :=
  match v with
  | VNone => false
  | VBool b => b
  | VInt z => negb (z =? 0)
  | VFloat f => PyFloat.truthy f
  | VStr s => match s with [] => false | _ => true end
  | VList l => match l with [] => false | _ => true end
  | VDict d => match d with [] => false | _ => true end
  end.

(** [type(v).__name__] *)
Definition type_name (v : value) : pystr :=
  match v with
  | VNone => u "NoneType"
  | VBool _ => u "bool"
  | VInt _ => u "int"
  | VFloat _ => u "float"
  | VStr _ => u "str"
  | VList _ => u "list"
  | VDict _ => u "dict"
  end.

(** *** [json.dumps] with its default options
    ([ensure_ascii=True], separators [", "] and [": "]) *)

Definition hex_digit (n : N) : N := (if n <? 10 then 48 + n else 87 + n)%N.

Definition u_escape (c : N) : pystr :=
  [92; 117; hex_digit (c / 4096 mod 16); hex_digit (c / 256 mod 16);
   hex_digit (c / 16 mod 16); hex_digit (c mod 16)]%N.

Definition escape_char (c : N) : pystr :=
  (if c =? 34 then [92; 34]
   else if c =? 92 then [92; 92]
   else if c =? 10 then [92; 110]
   else if c =? 13 then [92; 114]
   else if c =? 9 then [92; 116]
   else if c =? 8 then [92; 98]
   else if c =? 12 then [92; 102]
   else if (32 <=? c) && (c <=? 126) then [c]
   else if c <? 65536 then u_escape c
   else u_escape (55296 + (c - 65536) / 1024)
        ++ u_escape (56320 + (c - 65536) mod 1024))%N.

Definition encode_str (s : pystr) : pystr :=
  [34%N] ++ flat_map escape_char s ++ [34%N].

Fixpoint dumps (v : value) : pystr :=
  match v with
  | VNone => u "null"
  | VBool true => u "true"
  | VBool false => u "false"
  | VInt z => str_of_int z
  | VFloat f => PyFloat.repr f
  | VStr s => encode_str s
  | VList l =>
      u "[" ++ join (u ", ") (map dumps l) ++ u "]"
  | VDict d =>
      u "{"
      ++ join (u ", ")
           (map (fun kv => encode_str (fst kv) ++ u ": " ++ dumps (snd kv)) d)
      ++ u "}"
  end.

(** *** [json.loads] with its default options

    The decoder of CPython's [_json] accelerator.  Every failure of the
    scanner surfaces as [json.JSONDecodeError]; the limits of the
    interpreter (recursion depth, digits of an [int], memory) are not part
    of the model. *)

Inductive scan (A : Type) :=
| Scanned (v : A) (rest : pystr)
| Stop.

Arguments Stop {A}.

Definition is_digit (c : N) : bool := ((48 <=? c) && (c <=? 57))%N.

Definition is_ws (c : N) : bool :=
  ((c =? 32) || (c =? 9) || (c =? 10) || (c =? 13))%N.

Fixpoint skip_ws (s : pystr) : pystr :=
  match s with
  | c :: s' => if is_ws c then skip_ws s' else s
  | [] => []
  end.

Fixpoint strip_prefix (p s : pystr) : option pystr :=
  match p, s with
  | [], _ => Some s
  | a :: p', b :: s' => if (a =? b)%N then strip_prefix p' s' else None
  | _ :: _, [] => None
  end.

Definition hex_val (c : N) : option N :=
  (if (48 <=? c) && (c <=? 57) then Some (c - 48)
   else if (97 <=? c) && (c <=? 102) then Some (c - 87)
   else if (65 <=? c) && (c <=? 70) then Some (c - 55)
   else None)%N.

Definition hex4 (a b c d : N) : option N :=
  match hex_val a, hex_val b, hex_val c, hex_val d with
  | Some w, Some x, Some y, Some z => Some (w * 4096 + x * 256 + y * 16 + z)%N
  | _, _, _, _ => None
  end.

Definition is_high_surrogate (c : N) : bool := ((55296 <=? c) && (c <=? 56319))%N.
Definition is_low_surrogate (c : N) : bool := ((56320 <=? c) && (c <=? 57343))%N.
Definition join_surrogates (hi lo : N) : N :=
  (65536 + (hi - 55296) * 1024 + (lo - 56320))%N.

(** The character a one-letter escape stands for. *)
Definition unescape (c : N) : option N :=
  (if c =? 34 then Some 34
   else if c =? 92 then Some 92
   else if c =? 47 then Some 47
   else if c =? 98 then Some 8
   else if c =? 102 then Some 12
   else if c =? 110 then Some 10
   else if c =? 114 then Some 13
   else if c =? 116 then Some 9
   else None)%N.

(** [scanstring] in strict mode, from the character after the opening
    quote; [acc] holds the decoded characters in reverse. *)
Fixpoint scanstring (s : pystr) (acc : pystr) : scan pystr :=
  match s with
  | [] => Stop
  | c :: rest =>
      if (c =? 34)%N then Scanned (rev acc) rest
      else if (c =? 92)%N then
        match rest with
        | [] => Stop
        | e :: rest1 =>
            if (e =? 117)%N then
              match rest1 with
              | h1 :: h2 :: h3 :: h4 :: rest2 =>
                  match hex4 h1 h2 h3 h4 with
                  | None => Stop
                  | Some c1 =>
                      if is_high_surrogate c1 then
                        match rest2 with
                        | b :: v :: g1 :: g2 :: g3 :: g4 :: rest3 =>
                            if ((b =? 92) && (v =? 117))%N then
                              match hex4 g1 g2 g3 g4 with
                              | None => Stop
                              | Some c2 =>
                                  if is_low_surrogate c2
                                  then scanstring rest3 (join_surrogates c1 c2 :: acc)
                                  else scanstring rest2 (c1 :: acc)
                              end
                            else scanstring rest2 (c1 :: acc)
                        | _ => scanstring rest2 (c1 :: acc)
                        end
                      else scanstring rest2 (c1 :: acc)
                  end
              | _ => Stop
              end
            else
              match unescape e with
              | Some x => scanstring rest1 (x :: acc)
              | None => Stop
              end
        end
      else if (c <? 32)%N then Stop
      else scanstring rest (c :: acc)
  end.

(** The longest run of ASCII digits at the head of [s], and what follows. *)
Fixpoint take_digits (s : pystr) : pystr * pystr :=
  match s with
  | c :: s' =>
      if is_digit c then let '(ds, r) := take_digits s' in (c :: ds, r)
      else ([], s)
  | [] => ([], [])
  end.

Definition digits_value (ds : pystr) : Z :=
  fold_left (fun acc c => 10 * acc + Z.of_N (c - 48)) ds 0.

(** A JSON number: an optional minus sign, an integer part without leading
    zero, an optional fraction, an optional exponent.  It is an [int] when
    there is neither fraction nor exponent, else a [float]. *)
Definition match_number (s : pystr) : scan value :=
  let '(neg, s1) :=
    match s with
    | c :: r => if (c =? 45)%N then (true, r) else (false, s)
    | [] => (false, s)
    end in
  let int_part :=
    match s1 with
    | c :: r =>
        if ((49 <=? c) && (c <=? 57))%N
        then let '(ds, r') := take_digits r in Some (c :: ds, r')
        else if (c =? 48)%N then Some ([c], r)
        else None
    | [] => None
    end in
  match int_part with
  | None => Stop
  | Some (ip, r1) =>
      let '(frac, r2) :=
        match r1 with
        | dot :: d :: r =>
            if ((dot =? 46)%N && is_digit d)%bool
            then let '(fs, r') := take_digits (d :: r) in (Some fs, r')
            else (None, r1)
        | _ => (None, r1)
        end in
      let '(exp, r3) :=
        match r2 with
        | e :: r =>
            if ((e =? 101) || (e =? 69))%N then
              let '(eneg, r') :=
                match r with
                | sg :: ((_ :: _) as r'') =>
                    if (sg =? 45)%N then (true, r'')
                    else if (sg =? 43)%N then (false, r'')
                    else (false, r)
                | _ => (false, r)
                end in
              match take_digits r' with
              | ([], _) => (None, r2)
              | (es, r'') =>
                  (Some (if eneg then - digits_value es else digits_value es), r'')
              end
            else (None, r2)
        | [] => (None, r2)
        end in
      match frac, exp with
      | None, None =>
          Scanned (VInt (if neg then - digits_value ip else digits_value ip)) r3
      | _, _ =>
          let fs := match frac with Some fs => fs | None => [] end in
          let ex := match exp with Some x => x | None => 0 end in
          Scanned (VFloat (PyFloat.of_decimal neg (digits_value (ip ++ fs))
                             (ex - len fs))) r3
      end
  end.

Definition literal (text : string) (v : value) (s : pystr) : option (scan value) :=
  match strip_prefix (u text) s with
  | Some r => Some (Scanned v r)
  | None => None
  end.

(** [scan_once], with the loops over the items of an array and of an
    object.  [fuel] bounds the depth of the calls; a text [s] never needs
    more than [2 * len s] of it ([loads_fuel_enough] below). *)
Fixpoint scan_once (fuel : nat) (s : pystr) {struct fuel} : scan value :=
  match fuel with
  | O => Stop
  | S fuel' =>
      match s with
      | [] => Stop
      | c :: rest =>
          if (c =? 34)%N then
            match scanstring rest [] with
            | Scanned str r => Scanned (VStr str) r
            | Stop => Stop
            end
          else if (c =? 123)%N then
            match skip_ws rest with
            | (c' :: r) as s1 =>
                if (c' =? 125)%N then Scanned (VDict []) r
                else object_items fuel' s1 []
            | [] => Stop
            end
          else if (c =? 91)%N then
            match skip_ws rest with
            | (c' :: r) as s1 =>
                if (c' =? 93)%N then Scanned (VList []) r
                else array_items fuel' s1 []
            | [] => Stop
            end
          else
            let lit :=
              if (c =? 110)%N then literal "null" VNone s
              else if (c =? 116)%N then literal "true" (VBool true) s
              else if (c =? 102)%N then literal "false" (VBool false) s
              else if (c =? 78)%N then literal "NaN" (VFloat S754_nan) s
              else if (c =? 73)%N
              then literal "Infinity" (VFloat (S754_infinity false)) s
              else if (c =? 45)%N
              then literal "-Infinity" (VFloat (S754_infinity true)) s
              else None in
            match lit with
            | Some r => r
            | None => match_number s
            end
      end
  end

with array_items (fuel : nat) (s : pystr) (acc : list value) {struct fuel}
  : scan value :=
  match fuel with
  | O => Stop
  | S fuel' =>
      match scan_once fuel' s with
      | Stop => Stop
      | Scanned v r =>
          match skip_ws r with
          | c :: r' =>
              if (c =? 93)%N then Scanned (VList (rev (v :: acc))) r'
              else if (c =? 44)%N then array_items fuel' (skip_ws r') (v :: acc)
              else Stop
          | [] => Stop
          end
      end
  end

with object_items (fuel : nat) (s : pystr) (acc : dict) {struct fuel}
  : scan value :=
  match fuel with
  | O => Stop
  | S fuel' =>
      match s with
      | q :: s1 =>
          if (q =? 34)%N then
            match scanstring s1 [] with
            | Stop => Stop
            | Scanned key r =>
                match skip_ws r with
                | colon :: r1 =>
                    if (colon =? 58)%N then
                      match scan_once fuel' (skip_ws r1) with
                      | Stop => Stop
                      | Scanned v r2 =>
                          match skip_ws r2 with
                          | c :: r3 =>
                              if (c =? 125)%N
                              then Scanned (VDict (dict_set acc key v)) r3
                              else if (c =? 44)%N
                              then object_items fuel' (skip_ws r3)
                                     (dict_set acc key v)
                              else Stop
                          | [] => Stop
                          end
                      end
                    else Stop
                | [] => Stop
                end
            end
          else Stop
      | [] => Stop
      end
  end.

(** The decoder run with [fuel]: a text with a byte order mark is
    refused, blanks may surround the one value. *)
Definition loads_with (fuel : nat) (s : pystr) : option value :=
  match s with
  | 65279%N :: _ => None
  | _ =>
      match scan_once fuel (skip_ws s) with
      | Scanned v r =>
          match skip_ws r with
          | [] => Some v
          | _ :: _ => None
          end
      | Stop => None
      end
  end.

(** [json.loads(s)]: [Some v] when it returns [v], [None] when it raises
    [json.JSONDecodeError]. *)
Definition loads (s : pystr) : option value :=
  loads_with (2 * List.length s + 2) s.

End Json.
Import Json.

(** ** The script

    The process is run in an environment [env]: what the operating system
    answers to the calls of the script, including where a
    [KeyboardInterrupt] strikes (while the loop waits for a line, or
    during a call of [subprocess.run]).  Its observable behaviour is
    collected in a [state]: the [trace] of what is written to standard
    output, written to the diagnostic stream and handed to
    [subprocess.run], in the order of the events, and the two counters of
    [main]. *)

Module Relay.

Local Open Scope Z_scope.

(** *** Exceptions *)

Inductive exn_class :=
| JSONDecodeError
| AttributeError
| TypeError
| ValueError
| OSError
| KeyboardInterrupt.

Record exn := Exn { exn_cls : exn_class; exn_msg : pystr }.

(** [isinstance(e, Exception)]: [KeyboardInterrupt] derives from
    [BaseException] only. *)
Definition is_Exception (e : exn) : bool :=
  match exn_cls e with
  | KeyboardInterrupt => false
  | _ => true
  end.

Definition is_JSONDecodeError (e : exn) : bool :=
  match exn_cls e with
  | JSONDecodeError => true
  | _ => false
  end.

Definition is_KeyboardInterrupt (e : exn) : bool :=
  match exn_cls e with
  | KeyboardInterrupt => true
  | _ => false
  end.

(** *** The environment *)

(** What [subprocess.run] does: the child runs to completion (whatever its
    exit status, which the script does not look at), or the call raises. *)
Inductive run_outcome :=
| Completed
| Raises (e : exn).

(** How the iteration over [sys.stdin] ends: at the end of the stream, or
    with a [KeyboardInterrupt] raised while waiting for the next line. *)
Inductive stdin_end :=
| EndOfStream
| Interrupted.

Record env := {
  (** the home directory [os.path.expanduser] puts in place of [~] *)
  home : pystr;
  (** [os.environ.get('CLAUDE_SESSION_ID')] *)
  environ_session_id : option pystr;
  (** [int(datetime.now().timestamp())] when the module is loaded *)
  load_timestamp : Z;
  (** [os.getcwd()] *)
  getcwd : pystr;
  (** the lines the iteration over [sys.stdin] yields, then how it ends *)
  stdin : list pystr;
  stdin_ends : stdin_end;
  (** the outcome of the [n]-th call of [subprocess.run], on a command
      line of strings *)
  spawn : nat -> list pystr -> run_outcome;
  (** [int((datetime.now() - start_time).total_seconds() * 1000)] in the
      shutdown sequence *)
  elapsed_ms : Z
}.

(** What the process does to the outside world, in the order it does it. *)
Inductive event :=
| Out (text : pystr)         (** written to standard output *)
| Err (text : pystr)         (** written to the diagnostic stream *)
| Hook (cmd : list value).   (** [subprocess.run(cmd, ...)] is called *)

Record state := {
  trace : list event;
  activity_count : Z;
  total_tokens : Z
}.

Definition initial : state :=
  {| trace := []; activity_count := 0; total_tokens := 0 |}.

Definition stdout_of (tr : list event) : list pystr :=
  flat_map (fun ev => match ev with Out t => [t] | _ => [] end) tr.

Definition stderr_of (tr : list event) : list pystr :=
  flat_map (fun ev => match ev with Err t => [t] | _ => [] end) tr.

Definition hooks_of (tr : list event) : list (list value) :=
  flat_map (fun ev => match ev with Hook c => [c] | _ => [] end) tr.

Definition stdout (st : state) : list pystr := stdout_of (trace st).
Definition stderr (st : state) : list pystr := stderr_of (trace st).
Definition hooks (st : state) : list (list value) := hooks_of (trace st).

(** *** A state and exception monad *)

Inductive result (A : Type) :=
| Return (a : A)
| Raise (e : exn).

Arguments Raise {A}.

Definition M (A : Type) := state -> result A * state.

Definition ret {A} (a : A) : M A := fun st => (Return a, st).

Definition bind {A B} (m : M A) (k : A -> M B) : M B :=
  fun st =>
    match m st with
    | (Return a, st') => k a st'
    | (Raise e, st') => (Raise e, st')
    end.

Definition raise {A} (e : exn) : M A := fun st => (Raise e, st).

(** [try: body / except <class>: handler] *)
Definition try_except {A} (body : M A) (catches : exn -> bool)
    (handler : exn -> M A) : M A :=
  fun st =>
    match body st with
    | (Raise e, st') =>
        if catches e then handler e st' else (Raise e, st')
    | r => r
    end.

(** [try: body / finally: cleanup]: the cleanup runs on every exit; an
    exception of the body is raised again after it, unless the cleanup
    itself raises. *)
Definition try_finally {A} (body : M A) (cleanup : M unit) : M A :=
  fun st =>
    match body st with
    | (r, st') =>
        match cleanup st' with
        | (Return _, st'') => (r, st'')
        | (Raise e, st'') => (Raise e, st'')
        end
    end.

Declare Scope py_scope.
Delimit Scope py_scope with py.
Notation "x <- m ;; k" := (bind m (fun x => k))
  (at level 61, m at next level, right associativity) : py_scope.
Notation "m ;; k" := (bind m (fun _ => k))
  (at level 61, right associativity) : py_scope.
Local Open Scope py_scope.

Definition nl : pystr := [10%N].

Definition push (ev : event) (st : state) : state :=
  {| trace := trace st ++ [ev];
     activity_count := activity_count st;
     total_tokens := total_tokens st |}.

Definition emit (ev : event) : M unit := fun st => (Return tt, push ev st).

(** [print(text, end='', flush=True)] *)
Definition write_stdout (text : pystr) : M unit := emit (Out text).

(** [print(text, file=sys.stderr)] *)
Definition print_stderr (text : pystr) : M unit := emit (Err (text ++ nl)).

Definition get_activity_count : M Z := fun st => (Return (activity_count st), st).
Definition get_total_tokens : M Z := fun st => (Return (total_tokens st), st).

Definition set_activity_count (n : Z) : M unit :=
  fun st =>
    (Return tt,
     {| trace := trace st; activity_count := n;
        total_tokens := total_tokens st |}).

Definition set_total_tokens (n : Z) : M unit :=
  fun st =>
    (Return tt,
     {| trace := trace st; activity_count := activity_count st;
        total_tokens := n |}).

(** *** The functions of the script *)

Section Script.

Variable E : env.

(** line 13 *)
Definition ACTIVITY_LOGGER : pystr :=
  home E ++ u "/snowflake-activity-schema/activity_schema/log_claude_activity.sh".

(** line 14 *)
Definition SESSION_ID : pystr :=
  match environ_session_id E with
  | Some id => id
  | None => u "session-" ++ str_of_int (load_timestamp E)
  end.

(** The strings of a command line, or the type name of its first element
    that is not a [str]. *)
Fixpoint argv (cmd : list value) : pystr + list pystr :=
  match cmd with
  | [] => inr []
  | VStr s :: cmd' =>
      match argv cmd' with
      | inr l => inr (s :: l)
      | inl t => inl t
      end
  | v :: _ => inl (type_name v)
  end.

(** What the [n]-th call of [subprocess.run] does with [cmd]: an element
    that is not a [str] makes it raise [TypeError] before any process is
    started. *)
Definition run_outcome_of (n : nat) (cmd : list value) : run_outcome :=
  match argv cmd with
  | inl t =>
      Raises (Exn TypeError
                (u "expected str, bytes or os.PathLike object, not " ++ t))
  | inr args => spawn E n args
  end.

(** [subprocess.run(cmd, capture_output=True, text=True)] *)
Definition subprocess_run (cmd : list value) : M unit :=
  fun st =>
    match run_outcome_of (List.length (hooks st)) cmd with
    | Completed => (Return tt, push (Hook cmd) st)
    | Raises e => (Raise e, push (Hook cmd) st)
    end.

(** lines 16-22 *)
Definition log_to_snowflake (activity_type : pystr) (args : list value)
  : M unit :=
  try_except
    (let cmd := [VStr ACTIVITY_LOGGER; VStr activity_type] ++ args in
     subprocess_run cmd)
    is_Exception
    (fun e => print_stderr (u "Error logging to Snowflake: " ++ exn_msg e)).

(** lines 24-36 *)
Definition parse_tool_use (data : dict) : value * pystr * Z * Z :=
  let tool_name := dict_get data (u "tool") (VStr (u "unknown")) in
  let parameters := dict_get data (u "parameters") (VDict []) in
  let params_json := if truthy parameters then dumps parameters else u "{}" in
  let duration_ms := 100 in
  let tokens_used := len (dumps (VDict data)) / 4 in
  (tool_name, params_json, duration_ms, tokens_used).

Definition json_loads (s : pystr) : M value :=
  match loads s with
  | Some v => ret v
  | None => raise (Exn JSONDecodeError (u "Expecting value"))
  end.

(** [v == s] for the result [v] of [data.get(key)] and a [str] [s] *)
Definition eq_str (v : option value) (s : pystr) : bool :=
  match v with
  | Some (VStr t) => PyStr.eqb t s
  | _ => false
  end.

(** lines 56-72, the body of the inner [try]: [data.get] exists only on
    a [dict]. *)
Definition main_handle_event (line : pystr) : M unit :=
  data <- json_loads (strip line) ;;
  match data with
  | VDict d =>
      if eq_str (dict_lookup d (u "type")) (u "tool_use") then
        n <- get_activity_count ;;
        set_activity_count (n + 1) ;;
        let '(tool_name, params_json, duration_ms, tokens_used) :=
          parse_tool_use d in
        t <- get_total_tokens ;;
        set_total_tokens (t + tokens_used) ;;
        log_to_snowflake (u "tool_call")
          [tool_name; VStr params_json; VStr (u "success");
           VStr (str_of_int duration_ms); VStr (str_of_int tokens_used)]
      else if eq_str (dict_lookup d (u "type")) (u "error") then
        let error_msg := dict_get d (u "message") (VStr (u "Unknown error")) in
        log_to_snowflake (u "tool_call")
          [VStr (u "error"); VStr (dumps (VDict [(u "error", error_msg)]));
           VStr (u "error"); VStr (u "0"); VStr (u "0")]
      else ret tt
  | v =>
      raise (Exn AttributeError
               (u "'" ++ type_name v ++ u "' object has no attribute 'get'"))
  end.

(** lines 51-78, the body of the [for] *)
Definition main_for_body (line : pystr) : M unit :=
  write_stdout line ;;
  try_except (main_handle_event line) is_JSONDecodeError (fun _ => ret tt).

(** line 50 *)
Fixpoint main_for (lines : list pystr) : M unit :=
  match lines with
  | line :: rest => main_for_body line ;; main_for rest
  | [] =>
      match stdin_ends E with
      | EndOfStream => ret tt
      | Interrupted => raise (Exn KeyboardInterrupt [])
      end
  end.

(** lines 83-86, the [finally] block *)
Definition main_finally : M unit :=
  let duration_ms := elapsed_ms E in
  n <- get_activity_count ;;
  t <- get_total_tokens ;;
  log_to_snowflake (u "session_end")
    [VStr (str_of_int n); VStr (str_of_int t); VStr (str_of_int duration_ms)] ;;
  print_stderr (u "Session ended: " ++ str_of_int n ++ u " activities logged").

(** lines 40-47 *)
Definition main_startup : M unit :=
  print_stderr (u "Starting Claude stream parser (session: " ++ SESSION_ID ++ u ")") ;;
  log_to_snowflake (u "session_start") [VStr (getcwd E)] ;;
  set_activity_count 0 ;;
  set_total_tokens 0.

(** lines 49-81, the outer [try] with its [except KeyboardInterrupt] *)
Definition main_try : M unit :=
  try_except (main_for (stdin E)) is_KeyboardInterrupt
    (fun _ => print_stderr (nl ++ u "Stream parsing interrupted")).

(** lines 38-86 *)
Definition main : M unit :=
  main_startup ;;
  try_finally main_try main_finally.

(** A run of the script. *)
Definition run : result unit * state := main initial.

End Script.

End Relay.
Import Relay.

(** JSON text is written with an apostrophe for each double quote. *)
Definition j (s : string) : pystr :=
  map (fun c => if (c =? 39)%N then 34%N else c) (u s).

Arguments j s%_string.

Definition line (s : string) : pystr := j s ++ nl.

Arguments line s%_string.

(** * Vocabulary of the properties *)

Section Vocabulary.

Variable E : env.

Local Open Scope Z_scope.

(** The command line of a hook invocation. *)
Definition hook_cmd (kind : pystr) (args : list value) : list value :=
  [VStr (ACTIVITY_LOGGER E); VStr kind] ++ args.

(** The message [log_to_snowflake] prints for a caught exception. *)
Definition hook_error (e : exn) : event :=
  Err ((u "Error logging to Snowflake: " ++ exn_msg e) ++ nl).

(** What [parse_tool_use] returns, and the arguments [main] hands to the
    hook for a [tool_use] event and for an [error] event. *)
Definition tool_name_of (d : dict) : value :=
  dict_get d (u "tool") (VStr (u "unknown")).

Definition params_json_of (d : dict) : pystr :=
  if truthy (dict_get d (u "parameters") (VDict []))
  then dumps (dict_get d (u "parameters") (VDict []))
  else u "{}".

Definition tokens_of (d : dict) : Z := len (dumps (VDict d)) / 4.

Definition tool_use_args (d : dict) : list value :=
  [tool_name_of d; VStr (params_json_of d); VStr (u "success");
   VStr (u "100"); VStr (str_of_int (tokens_of d))].

Definition error_args (d : dict) : list value :=
  [VStr (u "error");
   VStr (dumps (VDict [(u "error", dict_get d (u "message") (VStr (u "Unknown error")))]));
   VStr (u "error"); VStr (u "0"); VStr (u "0")].

(** The counters after a [tool_use] event of [tokens] tokens. *)
Definition bump (tokens : Z) (st : state) : state :=
  {| trace := trace st;
     activity_count := activity_count st + 1;
     total_tokens := total_tokens st + tokens |}.

(** The exception [data.get] raises on a value that is not a [dict]. *)
Definition no_get (v : value) : exn :=
  Exn AttributeError
    (u "'" ++ type_name v ++ u "' object has no attribute 'get'").

Definition is_dict (v : value) : bool :=
  match v with
  | VDict _ => true
  | _ => false
  end.


Definition is_tool_use (l : pystr) : bool :=
  match loads (strip l) with
  | Some (VDict d) => eq_str (dict_lookup d (u "type")) (u "tool_use")
  | _ => false
  end.

Definition line_tokens (l : pystr) : Z :=
  match loads (strip l) with
  | Some (VDict d) =>
      if eq_str (dict_lookup d (u "type")) (u "tool_use") then tokens_of d else 0
  | _ => 0
  end.

(** The two counters after the lines [ls]. *)
Definition count_tool_use (ls : list pystr) : Z :=
  Z.of_nat (List.length (filter is_tool_use ls)).

Definition sum_tokens (ls : list pystr) : Z :=
  fold_right Z.add 0 (map line_tokens ls).

(** The events of the loop: echoes, diagnostics and [tool_call] hooks. *)
Definition loop_event (ev : event) : Prop :=
  match ev with
  | Hook c => exists args, c = hook_cmd (u "tool_call") args
  | _ => True
  end.

Definition is_err (ev : event) : Prop :=
  match ev with
  | Err _ => True
  | _ => False
  end.

(** The hook invocations of a given kind among [cmds]. *)
Definition of_kind (kind : pystr) (cmds : list (list value)) : list (list value) :=
  filter (fun c => match c with
                   | _ :: VStr k :: _ => PyStr.eqb k kind
                   | _ => false
                   end) cmds.

Definition interrupts (o : run_outcome) : bool :=
  match o with
  | Raises e => is_KeyboardInterrupt e
  | Completed => false
  end.

(** No call of [subprocess.run] is cut short by a [KeyboardInterrupt]. *)
Definition uninterrupted_hooks : Prop :=
  forall n args, interrupts (spawn E n args) = false.

Definition banner : event :=
  Err ((u "Starting Claude stream parser (session: " ++ SESSION_ID E ++ u ")") ++ nl).

Definition notice : event := Err ((nl ++ u "Stream parsing interrupted") ++ nl).

Definition summary (st : state) : event :=
  Err ((u "Session ended: " ++ str_of_int (activity_count st)
          ++ u " activities logged") ++ nl).

Definition session_start_cmd : list value :=
  hook_cmd (u "session_start") [VStr (getcwd E)].

(** The [session_end] command line for the counters of [st]. *)
Definition session_end_cmd (st : state) : list value :=
  hook_cmd (u "session_end")
    [VStr (str_of_int (activity_count st)); VStr (str_of_int (total_tokens st));
     VStr (str_of_int (elapsed_ms E))].

(** The state when the loop is entered, [diag] being what the
    [session_start] call printed. *)
Definition started (diag : list event) : state :=
  {| trace := [banner; Hook session_start_cmd] ++ diag;
     activity_count := 0; total_tokens := 0 |}.

(** The outcome of the [for] loop in the run, when the run gets there. *)
Definition loop_run : option (result unit * state) :=
  match main_startup E initial with
  | (Return _, st) => Some (main_for E (stdin E) st)
  | (Raise _, _) => None
  end.

(** The hook command lines the body of the loop issues for a line. *)
Definition line_hooks (l : pystr) : list (list value) :=
  match loads (strip l) with
  | Some (VDict d) =>
      if eq_str (dict_lookup d (u "type")) (u "tool_use")
      then [hook_cmd (u "tool_call") (tool_use_args d)]
      else if eq_str (dict_lookup d (u "type")) (u "error")
      then [hook_cmd (u "tool_call") (error_args d)]
      else []
  | _ => []
  end.




End Vocabulary.

(** An environment for the examples: every hook call goes as [sp] says. *)
Definition example_env (lines : list pystr) (ends : stdin_end)
    (sp : nat -> list pystr -> run_outcome) : env :=
  {| home := u "/home/dev";
     environ_session_id := Some (u "demo");
     load_timestamp := 1700000000;
     getcwd := u "/work";
     stdin := lines;
     stdin_ends := ends;
     spawn := sp;
     elapsed_ms := 250 |}.

Definition always_completes : nat -> list pystr -> run_outcome :=
  fun _ _ => Completed.

(** The hook is missing: every call raises [FileNotFoundError]. *)
Definition hook_missing : nat -> list pystr -> run_outcome :=
  fun _ _ => Raises (Exn OSError (u "[Errno 2] No such file or directory")).

Definition logger : value :=
  VStr (u "/home/dev/snowflake-activity-schema/activity_schema/log_claude_activity.sh").

Definition search_line : pystr :=
  line "{'type':'tool_use','tool':'search','parameters':{'q':'x'}}".

Definition search_event : dict :=
  [(u "type", VStr (u "tool_use")); (u "tool", VStr (u "search"));
   (u "parameters", VDict [(u "q", VStr (u "x"))])].

(** The same environment with a hook that never fails. *)
Definition reliable (E : env) : env :=
  {| home := home E;
     environ_session_id := environ_session_id E;
     load_timestamp := load_timestamp E;
     getcwd := getcwd E;
     stdin := stdin E;
     stdin_ends := stdin_ends E;
     spawn := fun _ _ => Completed;
     elapsed_ms := elapsed_ms E |}.

(** Two states that differ in the diagnostic stream at most. *)
Definition same_relay (a b : state) : Prop :=
  stdout a = stdout b /\ hooks a = hooks b
  /\ activity_count a = activity_count b /\ total_tokens a = total_tokens b.

(** The state in which the run leaves the [for] loop. *)
Definition loop_state (E : env) : state :=
  match loop_run E with
  | Some (_, st) => st
  | None => initial
  end.

(** Two lines, then Ctrl-C while waiting for the third; the hook is
    missing. *)
Definition interrupted_env : env :=
  example_env [search_line; line "not json at all"] Interrupted hook_missing.

(** A JSON array between two events. *)
Definition array_env : env :=
  example_env [search_line; line "[]"; search_line] EndOfStream always_completes.

(** Ctrl-C during the [session_start] call. *)
Definition startup_interrupted_env : env :=
  example_env [search_line] EndOfStream
    (fun n _ => if Nat.eqb n 0 then Raises (Exn KeyboardInterrupt [])
                else Completed).

Definition error_line : pystr := line "{'type':'error','message':'boom'}".


(** Immediate end of stream. *)
Definition empty_env : env := example_env [] EndOfStream always_completes.



(** Ctrl-C during the [session_end] call, after a JSON array ended the
    loop. *)
Definition shutdown_interrupted_env : env :=
  example_env [search_line; line "[]"] EndOfStream
    (fun n _ => if Nat.eqb n 2 then Raises (Exn KeyboardInterrupt [])
                else Completed).


(** Three lines, and the hook is missing. *)
Definition hook_missing_env : env :=
  example_env [search_line; error_line; line "plain text"] EndOfStream
    hook_missing.

(** * Properties of the script *)

Unset Implicit Arguments.

Lemma pystr_eqb_eq (a b : pystr) : PyStr.eqb a b = true <-> a = b.
Proof.
  unfold PyStr.eqb. destruct (list_eq_dec N.eq_dec a b); split; congruence.
Qed.

(** ** The decoder terminates within its fuel *)

Section JsonFacts.

Lemma skip_ws_length s : (List.length (skip_ws s) <= List.length s)%nat.
Proof.
  induction s as [|c s IH]; cbn; [lia|]. destruct (is_ws c); cbn; lia.
Qed.

Lemma strip_prefix_length p s r :
  strip_prefix p s = Some r -> (List.length r + List.length p = List.length s)%nat.
Proof.
  revert s. induction p as [|a p IH]; intros [|b s]; cbn; try discriminate.
  - intros H; inversion H; cbn; lia.
  - intros H; inversion H; cbn; lia.
  - destruct (a =? b)%N; [|discriminate]. intros H. apply IH in H. lia.
Qed.

Lemma take_digits_length s :
  (List.length (snd (take_digits s)) <= List.length s)%nat.
Proof.
  induction s as [|c s IH]; cbn; [lia|].
  destruct (is_digit c); cbn; [|lia].
  destruct (take_digits s) as [ds r]. cbn in *. lia.
Qed.

Lemma scanstring_length n : forall s acc v r,
  (List.length s <= n)%nat ->
  scanstring s acc = Scanned v r -> (List.length r < List.length s)%nat.
Proof.
  induction n as [|n IH]; intros s acc v r Hn.
  - destruct s; [discriminate|cbn in Hn; lia].
  - destruct s as [|c rest]; [discriminate|]. cbn in Hn. cbn [scanstring].
    destruct (c =? 34)%N.
    { intros H; inversion H; subst; cbn; lia. }
    destruct (c =? 92)%N.
    + destruct rest as [|e rest1]; [discriminate|].
      destruct (e =? 117)%N.
      * destruct rest1 as [|h1 [|h2 [|h3 [|h4 rest2]]]]; try discriminate.
        destruct (hex4 h1 h2 h3 h4) as [c1|]; [|discriminate].
        assert (Hsimple : forall a, scanstring rest2 a = Scanned v r ->
                  (List.length r < List.length (c :: e :: h1 :: h2 :: h3 :: h4 :: rest2))%nat).
        { intros a H. apply IH in H; cbn in *; lia. }
        destruct (is_high_surrogate c1); [|apply Hsimple].
        destruct rest2 as [|b [|w [|g1 [|g2 [|g3 [|g4 rest3]]]]]]; try apply Hsimple.
        destruct ((b =? 92) && (w =? 117))%N; [|apply Hsimple].
        destruct (hex4 g1 g2 g3 g4) as [c2|]; [|discriminate].
        destruct (is_low_surrogate c2); [|apply Hsimple].
        intros H. apply IH in H; cbn in *; lia.
      * destruct (unescape e); [|discriminate].
        intros H. apply IH in H; cbn in *; lia.
    + destruct (c <? 32)%N; [discriminate|].
      intros H. apply IH in H; cbn in *; lia.
Qed.

Lemma match_number_length s v r :
  match_number s = Scanned v r -> (List.length r < List.length s)%nat.
Proof.
  unfold match_number.
  set (ns := match s with
             | c :: r0 => if (c =? 45)%N then (true, r0) else (false, s)
             | [] => (false, s)
             end).
  assert (H1 : (List.length (snd ns) <= List.length s)%nat).
  { subst ns. destruct s as [|c r0]; cbn; [lia|]. destruct (c =? 45)%N; cbn; lia. }
  destruct ns as [neg s1]. cbn [snd] in H1.
  set (ip := match s1 with
             | c :: r0 =>
                 if ((49 <=? c) && (c <=? 57))%N
                 then let '(ds, r') := take_digits r0 in Some (c :: ds, r')
                 else if (c =? 48)%N then Some ([c], r0) else None
             | [] => None
             end).
  assert (H2 : forall a r1, ip = Some (a, r1) -> (List.length r1 < List.length s1)%nat).
  { subst ip. intros a r1. destruct s1 as [|c r0]; [discriminate|].
    destruct ((49 <=? c) && (c <=? 57))%N.
    - pose proof (take_digits_length r0) as Ht.
      destruct (take_digits r0) as [ds r']. cbn in Ht.
      intros H; inversion H; subst; cbn; lia.
    - destruct (c =? 48)%N; [|discriminate].
      intros H; inversion H; subst; cbn; lia. }
  destruct ip as [[a r1]|]; [|discriminate].
  specialize (H2 a r1 eq_refl).
  set (fr := match r1 with
             | dot :: d :: r0 =>
                 if ((dot =? 46)%N && is_digit d)%bool
                 then let '(fs, r') := take_digits (d :: r0) in (Some fs, r')
                 else (None, r1)
             | _ => (None, r1)
             end).
  assert (H3 : (List.length (snd fr) <= List.length r1)%nat).
  { subst fr. destruct r1 as [|dot [|d r0]]; cbn [snd]; try lia.
    destruct ((dot =? 46)%N && is_digit d)%bool; cbn [snd]; [|lia].
    pose proof (take_digits_length (d :: r0)) as Ht.
    destruct (take_digits (d :: r0)) as [fs r']. cbn in *. lia. }
  destruct fr as [frac r2]. cbn [snd] in H3.
  match goal with |- (let '(_, _) := ?t in _) = _ -> _ => set (ex := t) end.
  assert (H4 : (List.length (snd ex) <= List.length r2)%nat).
  { subst ex. destruct r2 as [|e r0]; cbn [snd]; [lia|].
    destruct ((e =? 101) || (e =? 69))%N; cbn [snd]; [|lia].
    match goal with |- context [let '(_, _) := ?t in _] => set (sg := t) end.
    assert (H5 : (List.length (snd sg) <= List.length r0)%nat).
    { subst sg. destruct r0 as [|x [|y r9]]; cbn [snd]; try lia.
      destruct (x =? 45)%N; cbn; [lia|]. destruct (x =? 43)%N; cbn; lia. }
    destruct sg as [eneg r']. cbn [snd] in H5.
    pose proof (take_digits_length r') as Ht.
    destruct (take_digits r') as [[|d0 es] r'']; cbn in *; lia. }
  destruct ex as [exp r3]. cbn [snd] in H4.
  destruct frac, exp; intros H; inversion H; subst; lia.
Qed.

Lemma literal_length text v s res :
  literal text v s = Some res -> text <> EmptyString ->
  exists r, res = Scanned v r /\ (List.length r < List.length s)%nat.
Proof.
  unfold literal. destruct (strip_prefix (u text) s) as [r|] eqn:H; [|discriminate].
  intros He Hn. inversion He; subst. exists r. split; [reflexivity|].
  apply strip_prefix_length in H.
  destruct text; [contradiction|]. cbn in H. lia.
Qed.

Lemma scanstring_shorter s acc v r :
  scanstring s acc = Scanned v r -> (List.length r < List.length s)%nat.
Proof. apply (scanstring_length (List.length s)). lia. Qed.

Lemma skip_ws_cons s c r :
  skip_ws s = c :: r -> (List.length r < List.length s)%nat.
Proof.
  intros H. pose proof (skip_ws_length s) as Hl. rewrite H in Hl. cbn in Hl. lia.
Qed.

(** Scanning consumes at least one character. *)
Lemma scan_length fuel :
  (forall s v r, scan_once fuel s = Scanned v r ->
                 (List.length r < List.length s)%nat)
  /\ (forall s acc v r, array_items fuel s acc = Scanned v r ->
                        (List.length r < List.length s)%nat)
  /\ (forall s acc v r, object_items fuel s acc = Scanned v r ->
                        (List.length r < List.length s)%nat).
Proof.
  induction fuel as [|f (IH1 & IH2 & IH3)].
  { repeat split; intros; discriminate. }
  split; [|split].
  - intros s v r. cbn [scan_once].
    destruct s as [|c rest]; [discriminate|].
    destruct (c =? 34)%N.
    { destruct (scanstring rest []) as [str r0|] eqn:Hs; [|discriminate].
      apply scanstring_shorter in Hs. intros H; inversion H; subst; cbn; lia. }
    destruct (c =? 123)%N.
    { destruct (skip_ws rest) as [|c' r0] eqn:Hw; [discriminate|].
      pose proof (skip_ws_length rest) as Hl. rewrite Hw in Hl. cbn in Hl.
      destruct (c' =? 125)%N.
      - intros H; inversion H; subst; cbn; lia.
      - intros H. apply IH3 in H. cbn in *. lia. }
    destruct (c =? 91)%N.
    { destruct (skip_ws rest) as [|c' r0] eqn:Hw; [discriminate|].
      pose proof (skip_ws_length rest) as Hl. rewrite Hw in Hl. cbn in Hl.
      destruct (c' =? 93)%N.
      - intros H; inversion H; subst; cbn; lia.
      - intros H. apply IH2 in H. cbn in *. lia. }
    match goal with |- match ?l with _ => _ end = _ -> _ =>
      destruct l as [res|] eqn:Hlit end.
    + repeat match type of Hlit with
             | (if ?b then _ else _) = _ => destruct b
             end;
        try discriminate;
        (apply literal_length in Hlit; [|discriminate]);
        destruct Hlit as (r1 & -> & Hl); intros H; inversion H; subst; exact Hl.
    + apply match_number_length.
  - intros s acc v r. cbn [array_items].
    destruct (scan_once f s) as [v0 r0|] eqn:Hs; [|discriminate].
    apply IH1 in Hs.
    destruct (skip_ws r0) as [|c r'] eqn:Hw; [discriminate|].
    apply skip_ws_cons in Hw.
    destruct (c =? 93)%N.
    { intros H; inversion H; subst; lia. }
    destruct (c =? 44)%N; [|discriminate].
    intros H. apply IH2 in H. pose proof (skip_ws_length r'). lia.
  - intros s acc v r. cbn [object_items].
    destruct s as [|q s1]; [discriminate|].
    destruct (q =? 34)%N; [|discriminate].
    destruct (scanstring s1 []) as [key r0|] eqn:Hk; [|discriminate].
    apply scanstring_shorter in Hk.
    destruct (skip_ws r0) as [|colon r1] eqn:Hw; [discriminate|].
    apply skip_ws_cons in Hw.
    destruct (colon =? 58)%N; [|discriminate].
    destruct (scan_once f (skip_ws r1)) as [v0 r2|] eqn:Hs; [|discriminate].
    apply IH1 in Hs. pose proof (skip_ws_length r1).
    destruct (skip_ws r2) as [|c r3] eqn:Hw2; [discriminate|].
    apply skip_ws_cons in Hw2.
    destruct (c =? 125)%N.
    { intros H'; inversion H'; subst; cbn; lia. }
    destruct (c =? 44)%N; [|discriminate].
    intros H'. apply IH3 in H'. pose proof (skip_ws_length r3). cbn. lia.
Qed.

(** One more unit of fuel changes nothing once the fuel is twice the
    length of the text. *)
Lemma scan_fuel_step fuel :
  (forall s, (2 * List.length s <= fuel)%nat ->
             scan_once (S fuel) s = scan_once fuel s)
  /\ (forall s acc, (2 * List.length s + 1 <= fuel)%nat ->
                    array_items (S fuel) s acc = array_items fuel s acc)
  /\ (forall s acc, (2 * List.length s + 1 <= fuel)%nat ->
                    object_items (S fuel) s acc = object_items fuel s acc).
Proof.
  induction fuel as [|f (IH1 & IH2 & IH3)].
  { split; [|split].
    - intros [|c s] H; [reflexivity|cbn in H; lia].
    - intros s acc H. lia.
    - intros s acc H. lia. }
  split; [|split].
  - intros s Hf.
    cbn [scan_once].
    destruct s as [|c rest]; [reflexivity|]. cbn [List.length] in Hf.
    destruct (c =? 34)%N; [reflexivity|].
    destruct (c =? 123)%N.
    { destruct (skip_ws rest) as [|c' r0] eqn:Hw; [reflexivity|].
      destruct (c' =? 125)%N; [reflexivity|].
      apply IH3. pose proof (skip_ws_length rest) as Hl. rewrite Hw in Hl. lia. }
    destruct (c =? 91)%N.
    { destruct (skip_ws rest) as [|c' r0] eqn:Hw; [reflexivity|].
      destruct (c' =? 93)%N; [reflexivity|].
      apply IH2. pose proof (skip_ws_length rest) as Hl. rewrite Hw in Hl. lia. }
    reflexivity.
  - intros s acc Hf.
    cbn [array_items]. rewrite IH1 by lia.
    destruct (scan_once f s) as [v r|] eqn:Hs; [|reflexivity].
    apply (proj1 (scan_length f)) in Hs.
    destruct (skip_ws r) as [|c r'] eqn:Hw; [reflexivity|].
    apply skip_ws_cons in Hw.
    destruct (c =? 93)%N; [reflexivity|].
    destruct (c =? 44)%N; [|reflexivity].
    apply IH2. pose proof (skip_ws_length r'). lia.
  - intros s acc Hf.
    cbn [object_items].
    destruct s as [|q s1]; [reflexivity|]. cbn [List.length] in Hf.
    destruct (q =? 34)%N; [|reflexivity].
    destruct (scanstring s1 []) as [key r|] eqn:Hk; [|reflexivity].
    apply scanstring_shorter in Hk.
    destruct (skip_ws r) as [|colon r1] eqn:Hw; [reflexivity|].
    apply skip_ws_cons in Hw.
    destruct (colon =? 58)%N; [|reflexivity].
    pose proof (skip_ws_length r1).
    rewrite IH1 by lia.
    destruct (scan_once f (skip_ws r1)) as [v r2|] eqn:Hs; [|reflexivity].
    apply (proj1 (scan_length f)) in Hs.
    destruct (skip_ws r2) as [|c r3] eqn:Hw2; [reflexivity|].
    apply skip_ws_cons in Hw2.
    destruct (c =? 125)%N; [reflexivity|].
    destruct (c =? 44)%N; [|reflexivity].
    apply IH3. pose proof (skip_ws_length r3). lia.
Qed.

Lemma scan_once_fuel_enough extra s fuel :
  (2 * List.length s <= fuel)%nat ->
  scan_once (fuel + extra) s = scan_once fuel s.
Proof.
  intros Hf. induction extra as [|k IH].
  - now rewrite Nat.add_0_r.
  - rewrite Nat.add_succ_r, (proj1 (scan_fuel_step (fuel + k))) by lia. exact IH.
Qed.

(** [json.loads] never runs out of fuel: any larger amount gives the same
    result. *)
Theorem loads_fuel_enough s extra :
  loads_with (2 * List.length s + 2 + extra) s = loads s.
Proof.
  unfold loads, loads_with. destruct s as [|c s']; [reflexivity|].
  pose proof (skip_ws_length (c :: s')) as Hl.
  rewrite (scan_once_fuel_enough extra) by lia. reflexivity.
Qed.

End JsonFacts.

Section Facts.

Variable E : env.

Local Open Scope Z_scope.

Lemma log_to_snowflake_eq kind args st :
  log_to_snowflake E kind args st =
  match run_outcome_of E (List.length (hooks st)) (hook_cmd E kind args) with
  | Completed => (Return tt, push (Hook (hook_cmd E kind args)) st)
  | Raises e =>
      if is_Exception e
      then (Return tt, push (hook_error e) (push (Hook (hook_cmd E kind args)) st))
      else (Raise e, push (Hook (hook_cmd E kind args)) st)
  end.
Proof.
  unfold log_to_snowflake, try_except, subprocess_run, hook_cmd.
  destruct (run_outcome_of _ _ _) as [|e]; [reflexivity|].
  destruct (is_Exception e); reflexivity.
Qed.

Lemma parse_tool_use_eq d :
  parse_tool_use d = (tool_name_of d, params_json_of d, 100, tokens_of d).
Proof. reflexivity. Qed.

Lemma eq_str_true v s : eq_str v s = true <-> v = Some (VStr s).
Proof.
  unfold eq_str. destruct v as [[| | | |t| |]|]; try (split; [discriminate|congruence]).
  rewrite pystr_eqb_eq. split; congruence.
Qed.

(** [log_to_snowflake] lets nothing but a [KeyboardInterrupt] through. *)
Lemma log_to_snowflake_raises kind args st e st' :
  log_to_snowflake E kind args st = (Raise e, st') -> is_Exception e = false.
Proof.
  rewrite log_to_snowflake_eq.
  destruct (run_outcome_of _ _ _) as [|e0]; [discriminate|].
  destruct (is_Exception e0) eqn:He; [discriminate|].
  intros H. inversion H; subst. exact He.
Qed.

Lemma not_Exception_not_JSONDecodeError e :
  is_Exception e = false -> is_JSONDecodeError e = false.
Proof. unfold is_Exception, is_JSONDecodeError. destruct (exn_cls e); congruence. Qed.

Lemma try_except_log kind args st :
  try_except (log_to_snowflake E kind args) is_JSONDecodeError (fun _ => ret tt) st
  = log_to_snowflake E kind args st.
Proof.
  unfold try_except.
  destruct (log_to_snowflake E kind args st) as [[a|e] st'] eqn:H; [reflexivity|].
  apply log_to_snowflake_raises in H.
  now rewrite (not_Exception_not_JSONDecodeError _ H).
Qed.

(** The four ways through the body of the [for]. *)
Lemma main_for_body_not_json line st :
  loads (strip line) = None ->
  main_for_body E line st = (Return tt, push (Out line) st).
Proof.
  intros H. unfold main_for_body, main_handle_event, json_loads, bind, try_except,
    write_stdout, emit, raise.
  now rewrite H.
Qed.

Lemma main_for_body_tool_use line d st :
  loads (strip line) = Some (VDict d) ->
  dict_lookup d (u "type") = Some (VStr (u "tool_use")) ->
  main_for_body E line st
  = log_to_snowflake E (u "tool_call") (tool_use_args d)
      (bump (tokens_of d) (push (Out line) st)).
Proof.
  intros H Ht.
  rewrite <- try_except_log.
  apply (proj2 (eq_str_true _ _)) in Ht.
  unfold main_for_body, main_handle_event, json_loads, write_stdout, emit.
  rewrite H. cbv beta iota delta [try_except bind ret].
  rewrite Ht. reflexivity.
Qed.

Lemma main_for_body_error line d st :
  loads (strip line) = Some (VDict d) ->
  dict_lookup d (u "type") = Some (VStr (u "error")) ->
  main_for_body E line st
  = log_to_snowflake E (u "tool_call") (error_args d) (push (Out line) st).
Proof.
  intros H Ht.
  rewrite <- try_except_log.
  unfold main_for_body, main_handle_event, json_loads, write_stdout, emit.
  rewrite H. cbv beta iota delta [try_except bind ret].
  rewrite Ht. reflexivity.
Qed.

Lemma main_for_body_other line d st :
  loads (strip line) = Some (VDict d) ->
  dict_lookup d (u "type") <> Some (VStr (u "tool_use")) ->
  dict_lookup d (u "type") <> Some (VStr (u "error")) ->
  main_for_body E line st = (Return tt, push (Out line) st).
Proof.
  intros H Ht He.
  unfold main_for_body, main_handle_event, json_loads, write_stdout, emit.
  rewrite H. cbv beta iota delta [try_except bind ret].
  destruct (eq_str (dict_lookup d (u "type")) (u "tool_use")) eqn:H1.
  { apply eq_str_true in H1. contradiction. }
  destruct (eq_str (dict_lookup d (u "type")) (u "error")) eqn:H2.
  { apply eq_str_true in H2. contradiction. }
  reflexivity.
Qed.

Lemma main_for_body_not_dict line v st :
  loads (strip line) = Some v ->
  is_dict v = false ->
  main_for_body E line st = (Raise (no_get v), push (Out line) st).
Proof.
  intros H Hv.
  unfold main_for_body, main_handle_event, json_loads, write_stdout, emit.
  rewrite H. cbv beta iota delta [try_except bind ret].
  destruct v; try discriminate; reflexivity.
Qed.

(** What [log_to_snowflake] changes: one [Hook] event, then at most one
    diagnostic; the counters stay. *)
Lemma log_to_snowflake_effect kind args st r st' :
  log_to_snowflake E kind args st = (r, st') ->
  activity_count st' = activity_count st
  /\ total_tokens st' = total_tokens st
  /\ exists diag,
       trace st' = trace st ++ Hook (hook_cmd E kind args) :: diag
       /\ (diag = [] \/ exists e, is_Exception e = true /\ diag = [hook_error e]).
Proof.
  rewrite log_to_snowflake_eq.
  destruct (run_outcome_of _ _ _) as [|e].
  - intros H; inversion H; subst; cbn. repeat split.
    exists []. split; [reflexivity|now left].
  - destruct (is_Exception e) eqn:He; intros H; inversion H; subst; cbn.
    + repeat split. exists [hook_error e]. rewrite <- app_assoc. split; [reflexivity|].
      right. now exists e.
    + repeat split. exists []. split; [reflexivity|now left].
Qed.

Lemma stdout_of_app a b : stdout_of (a ++ b) = stdout_of a ++ stdout_of b.
Proof. apply flat_map_app. Qed.

Lemma stderr_of_app a b : stderr_of (a ++ b) = stderr_of a ++ stderr_of b.
Proof. apply flat_map_app. Qed.

Lemma hooks_of_app a b : hooks_of (a ++ b) = hooks_of a ++ hooks_of b.
Proof. apply flat_map_app. Qed.

Lemma log_to_snowflake_hooks kind args st :
  hooks (snd (log_to_snowflake E kind args st)) = hooks st ++ [hook_cmd E kind args]
  /\ stdout (snd (log_to_snowflake E kind args st)) = stdout st
  /\ activity_count (snd (log_to_snowflake E kind args st)) = activity_count st
  /\ total_tokens (snd (log_to_snowflake E kind args st)) = total_tokens st.
Proof.
  destruct (log_to_snowflake E kind args st) as [r st'] eqn:H.
  apply log_to_snowflake_effect in H as (Ha & Ht & diag & Htr & Hd).
  cbn [snd]. unfold hooks, stdout. rewrite Htr, hooks_of_app, stdout_of_app.
  repeat split; try assumption.
  - destruct Hd as [->|(e & _ & ->)]; reflexivity.
  - destruct Hd as [->|(e & _ & ->)]; cbn; now rewrite app_nil_r.
Qed.

Lemma tool_use_step l d st :
  loads (strip l) = Some (VDict d) ->
  dict_lookup d (u "type") = Some (VStr (u "tool_use")) ->
  hooks (snd (main_for_body E l st))
  = hooks st ++ [hook_cmd E (u "tool_call") (tool_use_args d)]
  /\ activity_count (snd (main_for_body E l st)) = activity_count st + 1
  /\ total_tokens (snd (main_for_body E l st)) = total_tokens st + tokens_of d
  /\ stdout (snd (main_for_body E l st)) = stdout st ++ [l].
Proof.
  intros H Ht.
  rewrite (main_for_body_tool_use l d st H Ht).
  destruct (log_to_snowflake_hooks (u "tool_call") (tool_use_args d)
              (bump (tokens_of d) (push (Out l) st))) as (Hh & Ho & Ha & Hk).
  rewrite Hh, Ho, Ha, Hk. unfold hooks, stdout. cbn [bump push trace].
  rewrite hooks_of_app, stdout_of_app. cbn. rewrite app_nil_r.
  repeat split.
Qed.

End Facts.

(** ** The recognised events *)





(** ** The other lines *)





(** ** The loop and the run *)

Section RunFacts.

Variable E : env.

Local Open Scope Z_scope.

Lemma not_Exception_KeyboardInterrupt e :
  is_Exception e = false <-> is_KeyboardInterrupt e = true.
Proof.
  unfold is_Exception, is_KeyboardInterrupt.
  destruct (exn_cls e); split; congruence.
Qed.

Lemma log_to_snowflake_step kind args st r st' :
  log_to_snowflake E kind args st = (r, st') ->
  activity_count st' = activity_count st
  /\ total_tokens st' = total_tokens st
  /\ (exists evs,
        trace st' = trace st ++ Hook (hook_cmd E kind args) :: evs
        /\ stdout_of evs = [] /\ hooks_of evs = [] /\ Forall is_err evs)
  /\ (forall e, r = Raise e -> is_KeyboardInterrupt e = true).
Proof.
  intros H. pose proof H as H'.
  apply log_to_snowflake_effect in H as (Ha & Hk & diag & Htr & Hd).
  repeat split; try assumption.
  - exists diag. split; [assumption|].
    destruct Hd as [->|(e & _ & ->)]; repeat split; repeat constructor.
  - intros e ->. apply log_to_snowflake_raises in H'.
    now apply not_Exception_KeyboardInterrupt.
Qed.

Lemma is_err_loop_event evs : Forall is_err evs -> Forall (loop_event E) evs.
Proof.
  apply Forall_impl. intros [t|t|c]; cbn; tauto.
Qed.

(** The body of the loop: the echo first, then only loop events; the
    counters move as [is_tool_use] and [line_tokens] say; an exception
    other than [KeyboardInterrupt] comes from a fatal line. *)
Lemma main_for_body_effect l st r st' :
  main_for_body E l st = (r, st') ->
  activity_count st' = activity_count st + (if is_tool_use l then 1 else 0)
  /\ total_tokens st' = total_tokens st + line_tokens l
  /\ (exists evs,
        trace st' = trace st ++ Out l :: evs
        /\ stdout_of evs = []
        /\ Forall (loop_event E) evs)
  /\ (forall e, r = Raise e -> is_KeyboardInterrupt e = false ->
        exists v, loads (strip l) = Some v /\ is_dict v = false /\ e = no_get v).
Proof.
  unfold is_tool_use, line_tokens.
  destruct (loads (strip l)) as [v|] eqn:Hl.
  - destruct (is_dict v) eqn:Hv.
    + destruct v as [| | | | | |d]; try discriminate.
      destruct (eq_str (dict_lookup d (u "type")) (u "tool_use")) eqn:Ht.
      * apply eq_str_true in Ht.
        rewrite (main_for_body_tool_use E l d st Hl Ht). intros H.
        apply log_to_snowflake_step in H as (Ha & Hk & (evs & Htr & Ho & _ & Hf) & Hr).
        cbn [bump push trace activity_count total_tokens] in *.
        repeat split; try assumption.
        -- exists (Hook (hook_cmd E (u "tool_call") (tool_use_args d)) :: evs).
           rewrite Htr, <- app_assoc. split; [reflexivity|]. split; [exact Ho|].
           constructor; [now exists (tool_use_args d)|now apply is_err_loop_event].
        -- intros e -> He. rewrite (Hr e eq_refl) in He. discriminate.
      * destruct (eq_str (dict_lookup d (u "type")) (u "error")) eqn:He.
        -- apply eq_str_true in He.
           rewrite (main_for_body_error E l d st Hl He). intros H.
           apply log_to_snowflake_step in H as (Ha & Hk & (evs & Htr & Ho & _ & Hf) & Hr).
           cbn [push trace activity_count total_tokens] in *.
           repeat split; try lia.
           ++ exists (Hook (hook_cmd E (u "tool_call") (error_args d)) :: evs).
              rewrite Htr, <- app_assoc. split; [reflexivity|]. split; [exact Ho|].
              constructor; [now exists (error_args d)|now apply is_err_loop_event].
           ++ intros e -> Hn. rewrite (Hr e eq_refl) in Hn. discriminate.
        -- rewrite (main_for_body_other E l d st Hl).
           ++ intros H; inversion H; subst; cbn. repeat split; try lia.
              ** exists []. repeat split. constructor.
              ** discriminate.
           ++ intros Hc. apply eq_str_true in Hc. congruence.
           ++ intros Hc. apply eq_str_true in Hc. congruence.
    + rewrite (main_for_body_not_dict E l v st Hl Hv).
      intros H; inversion H; subst.
      destruct v; try discriminate; cbn;
        (repeat split; try lia;
         [ exists []; repeat split; constructor
         | intros e He _; inversion He; subst; eexists; repeat split; reflexivity ]).
  - rewrite (main_for_body_not_json E l st Hl).
    intros H; inversion H; subst; cbn. repeat split; try lia.
    + exists []. repeat split. constructor.
    + discriminate.
Qed.

Lemma count_tool_use_cons l ls :
  count_tool_use (l :: ls) = (if is_tool_use l then 1 else 0) + count_tool_use ls.
Proof.
  unfold count_tool_use. cbn [filter]. destruct (is_tool_use l); cbn [List.length]; lia.
Qed.

Lemma sum_tokens_cons l ls : sum_tokens (l :: ls) = line_tokens l + sum_tokens ls.
Proof. reflexivity. Qed.

(** The loop: it echoes the lines it reads, in order, and nothing else
    goes to standard output; it returns at the end of the stream only;
    an exception other than [KeyboardInterrupt] comes from a fatal line,
    the last one read. *)
Lemma main_for_effect ls st r st' :
  main_for E ls st = (r, st') ->
  exists n evs,
    (n <= List.length ls)%nat
    /\ trace st' = trace st ++ evs
    /\ stdout_of evs = firstn n ls
    /\ Forall (loop_event E) evs
    /\ activity_count st' = activity_count st + count_tool_use (firstn n ls)
    /\ total_tokens st' = total_tokens st + sum_tokens (firstn n ls)
    /\ (r = Return tt -> n = List.length ls /\ stdin_ends E = EndOfStream)
    /\ (forall e, r = Raise e -> is_KeyboardInterrupt e = false ->
          exists pre l post v,
            ls = pre ++ l :: post /\ firstn n ls = pre ++ [l]
            /\ loads (strip l) = Some v /\ is_dict v = false /\ e = no_get v).
Proof.
  revert st. induction ls as [|l rest IH]; intros st.
  - cbn [main_for]. intros H. exists 0%nat, []. rewrite app_nil_r.
    destruct (stdin_ends E) eqn:He; inversion H; subst; cbn;
      repeat split; try lia; try discriminate; try constructor.
    intros e Hr Hk. inversion Hr; subst. discriminate.
  - cbn [main_for]. unfold bind.
    destruct (main_for_body E l st) as [[[]|e1] st1] eqn:Hb;
      apply main_for_body_effect in Hb as (Ha & Hk & (evs1 & Htr & Ho & Hf) & Hr).
    + intros H. apply IH in H as (n & evs & Hn & Htr' & Ho' & Hf' & Ha' & Hk' & Hret & Hraise).
      exists (S n), (Out l :: evs1 ++ evs).
      cbn [firstn List.length]. rewrite count_tool_use_cons, sum_tokens_cons.
      repeat split; try lia.
      * rewrite Htr', Htr, <- app_assoc. reflexivity.
      * change (Out l :: evs1 ++ evs) with ([Out l] ++ evs1 ++ evs).
        rewrite !stdout_of_app, Ho, Ho'. reflexivity.
      * constructor; [exact I|]. apply Forall_app. split; assumption.
      * apply Hret in H. lia.
      * apply Hret in H. tauto.
      * intros e He Hki. destruct (Hraise e He Hki) as (pre & l0 & post & v & -> & Hfn & Hl & Hv & ->).
        exists (l :: pre), l0, post, v. rewrite Hfn. repeat split; assumption.
    + intros H. inversion H; subst.
      exists 1%nat, (Out l :: evs1).
      cbn [firstn List.length]. rewrite count_tool_use_cons, sum_tokens_cons.
      unfold count_tool_use, sum_tokens. cbn [filter map fold_right List.length].
      repeat split; try lia; try assumption.
      * change (Out l :: evs1) with ([Out l] ++ evs1).
        rewrite stdout_of_app, Ho. reflexivity.
      * constructor; [exact I|assumption].
      * discriminate.
      * discriminate.
      * intros e He Hki. inversion He; subst.
        destruct (Hr e eq_refl Hki) as (v & Hl & Hv & ->).
        exists [], l, rest, v. repeat split; assumption.
Qed.

(** The run, statement by statement. *)
Lemma run_eq :
  run E =
  match main_startup E initial with
  | (Raise e, st1) => (Raise e, st1)
  | (Return _, st1) =>
      match main_for E (stdin E) st1 with
      | (r2, st2) =>
          let '(r3, st3) :=
            match r2 with
            | Raise e =>
                if is_KeyboardInterrupt e then (Return tt, push notice st2)
                else (r2, st2)
            | Return _ => (r2, st2)
            end in
          match main_finally E st3 with
          | (Return _, st4) => (r3, st4)
          | (Raise e, st4) => (Raise e, st4)
          end
      end
  end.
Proof.
  unfold run, main, bind, try_finally, main_try, try_except, print_stderr, emit, notice.
  destruct (main_startup E initial) as [[[]|e] st1]; [|reflexivity].
  destruct (main_for E (stdin E) st1) as [[[]|e2] st2]; [reflexivity|].
  destruct (is_KeyboardInterrupt e2); reflexivity.
Qed.

Lemma main_startup_eq :
  main_startup E initial =
  match run_outcome_of E 0 (session_start_cmd E) with
  | Completed => (Return tt, started E [])
  | Raises e =>
      if is_Exception e then (Return tt, started E [hook_error e])
      else (Raise e, started E [])
  end.
Proof.
  unfold main_startup, bind, print_stderr, emit.
  rewrite log_to_snowflake_eq. cbn [hooks push trace initial hooks_of flat_map app List.length].
  fold (session_start_cmd E).
  destruct (run_outcome_of E 0 (session_start_cmd E)) as [|e]; [reflexivity|].
  destruct (is_Exception e); reflexivity.
Qed.

Lemma main_finally_eq st :
  main_finally E st =
  match run_outcome_of E (List.length (hooks st)) (session_end_cmd E st) with
  | Completed =>
      (Return tt, push (summary st) (push (Hook (session_end_cmd E st)) st))
  | Raises e =>
      if is_Exception e
      then (Return tt,
            push (summary st)
              (push (hook_error e) (push (Hook (session_end_cmd E st)) st)))
      else (Raise e, push (Hook (session_end_cmd E st)) st)
  end.
Proof.
  unfold main_finally, bind, get_activity_count, get_total_tokens, print_stderr, emit.
  rewrite log_to_snowflake_eq. fold (session_end_cmd E st).
  destruct (run_outcome_of E _ (session_end_cmd E st)) as [|e]; [reflexivity|].
  destruct (is_Exception e); reflexivity.
Qed.

Lemma hooks_push_err t st : hooks (push (Err t) st) = hooks st.
Proof. unfold hooks. cbn. rewrite hooks_of_app. cbn. apply app_nil_r. Qed.

Lemma hooks_of_errs evs : Forall is_err evs -> hooks_of evs = [].
Proof.
  induction 1 as [|ev evs Hev _ IH]; [reflexivity|].
  destruct ev; cbn in *; try contradiction. exact IH.
Qed.

Lemma stdout_of_errs evs : Forall is_err evs -> stdout_of evs = [].
Proof.
  induction 1 as [|ev evs Hev _ IH]; [reflexivity|].
  destruct ev; cbn in *; try contradiction. exact IH.
Qed.

(** The shutdown sequence when its hook call is not interrupted: the
    [session_end] call with the counters as they are, what the call
    prints if it fails, and the summary. *)
Lemma main_finally_effect st :
  interrupts (run_outcome_of E (List.length (hooks st)) (session_end_cmd E st)) = false ->
  exists diag,
    Forall is_err diag
    /\ main_finally E st =
       (Return tt,
        {| trace := trace st ++ [Hook (session_end_cmd E st)] ++ diag ++ [summary st];
           activity_count := activity_count st;
           total_tokens := total_tokens st |}).
Proof.
  intros Hi. rewrite main_finally_eq.
  destruct (run_outcome_of E _ (session_end_cmd E st)) as [|e].
  - exists []. split; [constructor|]. unfold push. cbn. now rewrite <- app_assoc.
  - cbn in Hi. destruct (is_Exception e) eqn:He.
    + exists [hook_error e]. split; [repeat constructor|].
      unfold push. cbn. now rewrite <- !app_assoc.
    + apply not_Exception_KeyboardInterrupt in He. congruence.
Qed.

(** The startup when its hook call is not interrupted. *)
Lemma main_startup_returns :
  interrupts (run_outcome_of E 0 (session_start_cmd E)) = false ->
  exists diag0,
    Forall is_err diag0
    /\ main_startup E initial = (Return tt, started E diag0).
Proof.
  intros Hi. rewrite main_startup_eq.
  destruct (run_outcome_of E 0 (session_start_cmd E)) as [|e].
  - exists []. split; [constructor|reflexivity].
  - cbn in Hi. destruct (is_Exception e) eqn:He.
    + exists [hook_error e]. split; [repeat constructor|reflexivity].
    + apply not_Exception_KeyboardInterrupt in He. congruence.
Qed.

Lemma stdout_started diag0 :
  Forall is_err diag0 -> stdout (started E diag0) = [].
Proof.
  intros Hd. unfold stdout, started. cbn [trace]. rewrite stdout_of_app.
  now rewrite (stdout_of_errs diag0 Hd).
Qed.

Lemma loop_run_inv r2 st2 :
  loop_run E = Some (r2, st2) ->
  exists diag0,
    Forall is_err diag0
    /\ main_startup E initial = (Return tt, started E diag0)
    /\ main_for E (stdin E) (started E diag0) = (r2, st2).
Proof.
  unfold loop_run. rewrite main_startup_eq.
  destruct (run_outcome_of E 0 (session_start_cmd E)) as [|e].
  - intros H. exists []. inversion H. repeat split. constructor.
  - destruct (is_Exception e); [|discriminate].
    intros H. exists [hook_error e]. inversion H. repeat split. repeat constructor.
Qed.




Lemma session_end_cmd_ext a b :
  activity_count a = activity_count b -> total_tokens a = total_tokens b ->
  session_end_cmd E a = session_end_cmd E b.
Proof. unfold session_end_cmd. now intros -> ->. Qed.

(** The shutdown sequence in every case: the [session_end] call, then
    diagnostics only. *)
Lemma main_finally_shape st :
  exists r st4 tail,
    main_finally E st = (r, st4)
    /\ trace st4 = trace st ++ [Hook (session_end_cmd E st)] ++ tail
    /\ Forall is_err tail
    /\ activity_count st4 = activity_count st
    /\ total_tokens st4 = total_tokens st.
Proof.
  rewrite main_finally_eq.
  destruct (run_outcome_of E _ (session_end_cmd E st)) as [|e].
  - eexists _, _, [summary st]. split; [reflexivity|]. cbn.
    rewrite <- app_assoc. repeat split. repeat constructor.
  - destruct (is_Exception e).
    + eexists _, _, [hook_error e; summary st]. split; [reflexivity|]. cbn.
      rewrite <- !app_assoc. repeat split. repeat constructor.
    + eexists _, _, []. split; [reflexivity|]. cbn. repeat split. constructor.
Qed.

(** The trace of a run whose [session_start] call is not interrupted. *)
Lemma run_shape :
  interrupts (run_outcome_of E 0 (session_start_cmd E)) = false ->
  exists mid tail,
    trace (snd (run E)) =
      [banner E; Hook (session_start_cmd E)] ++ mid
      ++ [Hook (session_end_cmd E (snd (run E)))] ++ tail
    /\ Forall (loop_event E) mid
    /\ Forall is_err tail.
Proof.
  intros Hi.
  destruct (main_startup_returns Hi) as (diag0 & Hd0 & Hs).
  rewrite run_eq, Hs.
  destruct (main_for E (stdin E) (started E diag0)) as [r2 st2] eqn:Hf.
  apply main_for_effect in Hf as (n & evs & _ & Htr & _ & Hev & _).
  assert (H3 : exists r3 st3 note,
             match r2 with
             | Raise e =>
                 if is_KeyboardInterrupt e then (Return tt, push notice st2)
                 else (r2, st2)
             | Return _ => (r2, st2)
             end = (r3, st3)
             /\ trace st3 = trace st2 ++ note /\ Forall is_err note).
  { destruct r2 as [[]|e].
    - exists (Return tt), st2, []. rewrite app_nil_r. repeat split. constructor.
    - destruct (is_KeyboardInterrupt e).
      + exists (Return tt), (push notice st2), [notice]. repeat split. repeat constructor.
      + exists (Raise e), st2, []. rewrite app_nil_r. repeat split. constructor. }
  destruct H3 as (r3 & st3 & note & -> & Htr3 & Hnote).
  destruct (main_finally_shape st3) as (r & st4 & tail & Hfin & Htr4 & Htail & Ha & Ht).
  rewrite Hfin.
  exists (diag0 ++ evs ++ note), tail.
  match goal with |- trace (snd ?x) = _ /\ _ =>
    replace (snd x) with st4 by (destruct r; reflexivity) end.
  rewrite (session_end_cmd_ext st4 st3 Ha Ht).
  split; [|split; [|assumption]].
  - rewrite Htr4, Htr3, Htr. unfold started. cbn [trace].
    rewrite <- !app_assoc. reflexivity.
  - apply Forall_app. split; [now apply is_err_loop_event|].
    apply Forall_app. split; [assumption|now apply is_err_loop_event].
Qed.

Lemma of_kind_app k a b : of_kind k (a ++ b) = of_kind k a ++ of_kind k b.
Proof. apply filter_app. Qed.

Lemma of_kind_hook_cmd k k' args :
  of_kind k [hook_cmd E k' args]
  = if PyStr.eqb k' k then [hook_cmd E k' args] else [].
Proof. reflexivity. Qed.

(** The hooks of the loop are all of kind [tool_call]. *)
Lemma of_kind_loop_events k evs :
  Forall (loop_event E) evs ->
  PyStr.eqb (u "tool_call") k = false ->
  of_kind k (hooks_of evs) = [].
Proof.
  intros Hf Hk. induction Hf as [|ev evs Hev _ IH]; [reflexivity|].
  destruct ev as [t|t|c]; cbn [hooks_of flat_map app]; try exact IH.
  destruct Hev as [args ->].
  change (hook_cmd E (u "tool_call") args :: flat_map _ evs)
    with ([hook_cmd E (u "tool_call") args] ++ hooks_of evs).
  rewrite of_kind_app, of_kind_hook_cmd, Hk. exact IH.
Qed.


End RunFacts.

(** ** Interruption and escaping exceptions *)

(** C8: when the [for] loop is left by a [KeyboardInterrupt] (raised while
    waiting for a line or during a hook call of the loop), no further
    line is read or echoed; the interruption notice is printed, the
    [session_end] hook is called with the counters as they stand, the
    summary is printed, and [main] returns normally.  (The hypothesis on
    the [session_end] call excludes a second interruption during the
    shutdown itself.) *)
Theorem interruption_routes_to_shutdown (E : env) (e : exn) (st2 : state) :
  loop_run E = Some (Raise e, st2) ->
  is_KeyboardInterrupt e = true ->
  interrupts (run_outcome_of E (List.length (hooks st2)) (session_end_cmd E st2))
    = false ->
  (exists diag,
     Forall is_err diag
     /\ run E =
        (Return tt,
         {| trace := trace st2
                     ++ [notice; Hook (session_end_cmd E st2)] ++ diag
                     ++ [summary st2];
            activity_count := activity_count st2;
            total_tokens := total_tokens st2 |}))
  /\ stdout (snd (run E)) = stdout st2
  /\ exists n, stdout st2 = firstn n (stdin E).
Proof.
  intros Hl Hk Hi.
  destruct (loop_run_inv E _ _ Hl) as (diag0 & Hd0 & Hs & Hf).
  assert (Hi' : interrupts
                  (run_outcome_of E (List.length (hooks (push notice st2)))
                     (session_end_cmd E (push notice st2))) = false).
  { unfold notice. rewrite hooks_push_err. exact Hi. }
  destruct (main_finally_effect E _ Hi') as (diag & Hd & Hfin).
  assert (Hrun : run E =
        (Return tt,
         {| trace := trace st2
                     ++ [notice; Hook (session_end_cmd E st2)] ++ diag
                     ++ [summary st2];
            activity_count := activity_count st2;
            total_tokens := total_tokens st2 |})).
  { rewrite run_eq, Hs, Hf, Hk. cbv zeta iota beta. rewrite Hfin.
    unfold push. cbn. rewrite <- app_assoc. reflexivity. }
  split; [exists diag; split; assumption|].
  split.
  - rewrite Hrun. unfold stdout. cbn [snd trace].
    rewrite !stdout_of_app. cbn. rewrite (stdout_of_errs diag Hd). cbn.
    now rewrite app_nil_r.
  - apply main_for_effect in Hf as (n & evs & _ & Htr & Ho & _).
    exists n. unfold stdout. rewrite Htr, stdout_of_app, Ho.
    unfold started. cbn [trace]. rewrite stdout_of_app.
    rewrite (stdout_of_errs diag0 Hd0). reflexivity.
Qed.

Lemma interruption_routes_to_shutdown_witness :
  stdout (snd (run interrupted_env)) = stdout (loop_state interrupted_env).
Proof.
  apply (interruption_routes_to_shutdown interrupted_env
           (Exn KeyboardInterrupt []) (loop_state interrupted_env));
    vm_compute; reflexivity.
Defined.



(** ** The session hooks *)

(** C5 does not hold as the specification states it: when Ctrl-C arrives
    during the [session_start] call, which is outside the [try], the run
    ends there and [session_end] is never invoked. *)
Lemma session_end_missing_when_startup_interrupted :
  run startup_interrupted_env
  = (Raise (Exn KeyboardInterrupt []), started startup_interrupted_env [])
  /\ List.length (of_kind (u "session_end")
                    (hooks (snd (run startup_interrupted_env)))) <> 1%nat.
Proof.
  split; [vm_compute; reflexivity|].
  vm_compute. discriminate.
Qed.

(** C5, amended: in every run the [session_start] hook, with the working
    directory as argument, is invoked exactly once, right after the
    banner and before any line is processed.  In every run in which that
    call is not cut short by an interruption, the [session_end] hook, with
    the activity count, the token total and the elapsed milliseconds, is
    invoked exactly once, after everything the loop did: only echoes,
    diagnostics and [tool_call] hooks lie between the two, and only
    diagnostics follow. *)
Theorem session_hooks_bracket_the_run (E : env) :
  let st := snd (run E) in
  (exists rest, trace st = banner E :: Hook (session_start_cmd E) :: rest)
  /\ of_kind (u "session_start") (hooks st) = [session_start_cmd E]
  /\ (interrupts (run_outcome_of E 0 (session_start_cmd E)) = false ->
      exists mid tail,
        trace st =
          [banner E; Hook (session_start_cmd E)] ++ mid
          ++ [Hook (session_end_cmd E st)] ++ tail
        /\ Forall (loop_event E) mid
        /\ Forall is_err tail
        /\ of_kind (u "session_end") (hooks st) = [session_end_cmd E st]).
Proof.
  cbv zeta.
  destruct (interrupts (run_outcome_of E 0 (session_start_cmd E))) eqn:Hi.
  - assert (Hrun : exists e, run E = (Raise e, started E [])).
    { rewrite run_eq, main_startup_eq.
      destruct (run_outcome_of E 0 (session_start_cmd E)) as [|e]; [discriminate|].
      cbn in Hi. apply not_Exception_KeyboardInterrupt in Hi. rewrite Hi.
      now exists e. }
    destruct Hrun as [e ->]. cbn [snd].
    split; [now exists []|]. split; [reflexivity|discriminate].
  - destruct (run_shape E Hi) as (mid & tail & Htr & Hm & Ht).
    assert (Hh : hooks (snd (run E)) =
                 [session_start_cmd E] ++ hooks_of mid
                 ++ [session_end_cmd E (snd (run E))]).
    { unfold hooks. rewrite Htr, !hooks_of_app, (hooks_of_errs tail Ht), app_nil_r.
      reflexivity. }
    split; [exists (mid ++ [Hook (session_end_cmd E (snd (run E)))] ++ tail); exact Htr|].
    split.
    + rewrite Hh, !of_kind_app.
      rewrite (of_kind_loop_events E (u "session_start") mid Hm eq_refl).
      reflexivity.
    + intros _. exists mid, tail. repeat split; try assumption.
      rewrite Hh, !of_kind_app.
      rewrite (of_kind_loop_events E (u "session_end") mid Hm eq_refl).
      reflexivity.
Qed.

Lemma session_hooks_bracket_the_run_witness :
  exists mid tail,
    trace (snd (run interrupted_env)) =
      [banner interrupted_env; Hook (session_start_cmd interrupted_env)] ++ mid
      ++ [Hook (session_end_cmd interrupted_env (snd (run interrupted_env)))]
      ++ tail
    /\ Forall (loop_event interrupted_env) mid
    /\ Forall is_err tail
    /\ of_kind (u "session_end") (hooks (snd (run interrupted_env)))
       = [session_end_cmd interrupted_env (snd (run interrupted_env))].
Proof.
  apply (session_hooks_bracket_the_run interrupted_env).
  vm_compute; reflexivity.
Defined.

(** ** Failures of the hook *)

Section HookFailures.

Variable E : env.

Hypothesis quiet : uninterrupted_hooks E.

Lemma run_outcome_not_interrupt n cmd :
  interrupts (run_outcome_of E n cmd) = false.
Proof.
  unfold run_outcome_of. destruct (argv cmd); [reflexivity|apply quiet].
Qed.

Lemma reliable_outcome n cmd :
  run_outcome_of (reliable E) n cmd = Completed
  \/ exists e, run_outcome_of (reliable E) n cmd = Raises e /\ is_Exception e = true.
Proof.
  unfold run_outcome_of. destruct (argv cmd); [right|now left].
  eexists. split; reflexivity.
Qed.

Lemma same_relay_refl a : same_relay a a.
Proof. repeat split. Qed.

Lemma same_relay_hook c a b :
  same_relay a b -> same_relay (push (Hook c) a) (push (Hook c) b).
Proof.
  intros (Ho & Hh & Ha & Ht). unfold same_relay, stdout, hooks in *. cbn.
  rewrite !stdout_of_app, !hooks_of_app, Ho, Hh. repeat split; assumption.
Qed.

Lemma same_relay_out l a b :
  same_relay a b -> same_relay (push (Out l) a) (push (Out l) b).
Proof.
  intros (Ho & Hh & Ha & Ht). unfold same_relay, stdout, hooks in *. cbn.
  rewrite !stdout_of_app, !hooks_of_app, Ho, Hh. repeat split; assumption.
Qed.

Lemma same_relay_err_l t a b : same_relay a b -> same_relay (push (Err t) a) b.
Proof.
  intros (Ho & Hh & Ha & Ht). unfold same_relay, stdout, hooks in *. cbn.
  rewrite !stdout_of_app, !hooks_of_app, Ho, Hh. cbn. rewrite !app_nil_r.
  repeat split; assumption.
Qed.

Lemma same_relay_err_r t a b : same_relay a b -> same_relay a (push (Err t) b).
Proof.
  intros (Ho & Hh & Ha & Ht). unfold same_relay, stdout, hooks in *. cbn.
  rewrite !stdout_of_app, !hooks_of_app, Ho, Hh. cbn. rewrite !app_nil_r.
  repeat split; assumption.
Qed.

Lemma same_relay_bump k a b :
  same_relay a b -> same_relay (bump k a) (bump k b).
Proof.
  intros (Ho & Hh & Ha & Ht). unfold same_relay, stdout, hooks in *. cbn.
  rewrite Ha, Ht. repeat split; assumption.
Qed.

(** A hook call with a failing hook and the same call with a reliable
    hook return alike and leave the relay in the same state. *)
Lemma log_to_snowflake_sim kind args a b :
  same_relay a b ->
  exists a' b',
    log_to_snowflake E kind args a = (Return tt, a')
    /\ log_to_snowflake (reliable E) kind args b = (Return tt, b')
    /\ same_relay a' b'.
Proof.
  intros Hs. rewrite !log_to_snowflake_eq.
  change (hook_cmd (reliable E) kind args) with (hook_cmd E kind args).
  pose proof (run_outcome_not_interrupt (List.length (hooks a)) (hook_cmd E kind args)) as Hn.
  destruct (reliable_outcome (List.length (hooks b)) (hook_cmd E kind args))
    as [->|(e' & -> & ->)];
    destruct (run_outcome_of E _ (hook_cmd E kind args)) as [|e].
  - eexists _, _. split; [reflexivity|]. split; [reflexivity|].
    now apply same_relay_hook.
  - cbn in Hn. destruct (is_Exception e) eqn:He.
    + eexists _, _. split; [reflexivity|]. split; [reflexivity|].
      apply same_relay_err_l. now apply same_relay_hook.
    + apply not_Exception_KeyboardInterrupt in He. congruence.
  - eexists _, _. split; [reflexivity|]. split; [reflexivity|].
    apply same_relay_err_r. now apply same_relay_hook.
  - cbn in Hn. destruct (is_Exception e) eqn:He.
    + eexists _, _. split; [reflexivity|]. split; [reflexivity|].
      apply same_relay_err_l, same_relay_err_r. now apply same_relay_hook.
    + apply not_Exception_KeyboardInterrupt in He. congruence.
Qed.

Lemma main_for_body_sim l a b :
  same_relay a b ->
  exists r a' b',
    main_for_body E l a = (r, a')
    /\ main_for_body (reliable E) l b = (r, b')
    /\ same_relay a' b'.
Proof.
  intros Hs.
  destruct (loads (strip l)) as [v|] eqn:Hl.
  - destruct (is_dict v) eqn:Hv.
    + destruct v as [| | | | | |d]; try discriminate.
      destruct (eq_str (dict_lookup d (u "type")) (u "tool_use")) eqn:Ht.
      * apply eq_str_true in Ht.
        rewrite !(main_for_body_tool_use _ l d _ Hl Ht).
        destruct (log_to_snowflake_sim (u "tool_call") (tool_use_args d)
                    (bump (tokens_of d) (push (Out l) a))
                    (bump (tokens_of d) (push (Out l) b)))
          as (a' & b' & Ha & Hb & Hs').
        { now apply same_relay_bump, same_relay_out. }
        exists (Return tt), a', b'. split; [assumption|]. split; assumption.
      * destruct (eq_str (dict_lookup d (u "type")) (u "error")) eqn:He.
        -- apply eq_str_true in He.
           rewrite !(main_for_body_error _ l d _ Hl He).
           destruct (log_to_snowflake_sim (u "tool_call") (error_args d)
                       (push (Out l) a) (push (Out l) b))
             as (a' & b' & Ha & Hb & Hs').
           { now apply same_relay_out. }
           exists (Return tt), a', b'. split; [assumption|]. split; assumption.
        -- assert (H1 : dict_lookup d (u "type") <> Some (VStr (u "tool_use"))).
           { intros Hc. apply eq_str_true in Hc. congruence. }
           assert (H2 : dict_lookup d (u "type") <> Some (VStr (u "error"))).
           { intros Hc. apply eq_str_true in Hc. congruence. }
           rewrite !(main_for_body_other _ l d _ Hl H1 H2).
           eexists _, _, _. split; [reflexivity|]. split; [reflexivity|].
      now apply same_relay_out.
    + rewrite !(main_for_body_not_dict _ l v _ Hl Hv).
      eexists _, _, _. split; [reflexivity|]. split; [reflexivity|].
      now apply same_relay_out.
  - rewrite !(main_for_body_not_json _ l _ Hl).
    eexists _, _, _. split; [reflexivity|]. split; [reflexivity|].
      now apply same_relay_out.
Qed.

Lemma main_for_sim ls a b :
  same_relay a b ->
  exists r a' b',
    main_for E ls a = (r, a')
    /\ main_for (reliable E) ls b = (r, b')
    /\ same_relay a' b'.
Proof.
  revert a b. induction ls as [|l rest IH]; intros a b Hs.
  - cbn [main_for]. change (stdin_ends (reliable E)) with (stdin_ends E).
    destruct (stdin_ends E); eexists _, _, _;
      (split; [reflexivity|]; split; [reflexivity|]; assumption).
  - cbn [main_for]. unfold bind.
    destruct (main_for_body_sim l a b Hs) as ([[]|e] & a' & b' & -> & -> & Hs').
    + apply IH. exact Hs'.
    + eexists _, _, _. split; [reflexivity|]. split; [reflexivity|]. assumption.
Qed.

Lemma main_finally_sim a b :
  same_relay a b ->
  exists a' b',
    main_finally E a = (Return tt, a')
    /\ main_finally (reliable E) b = (Return tt, b')
    /\ same_relay a' b'.
Proof.
  intros Hs. pose proof Hs as (_ & _ & Hc & Ht).
  unfold main_finally, bind, get_activity_count, get_total_tokens.
  change (elapsed_ms (reliable E)) with (elapsed_ms E). rewrite <- Hc, <- Ht.
  destruct (log_to_snowflake_sim (u "session_end")
              [VStr (str_of_int (activity_count a));
               VStr (str_of_int (total_tokens a));
               VStr (str_of_int (elapsed_ms E))] a b Hs)
    as (a' & b' & -> & -> & Hs').
  eexists _, _. split; [reflexivity|]. split; [reflexivity|].
  apply same_relay_err_l, same_relay_err_r. exact Hs'.
Qed.

Lemma run_sim :
  fst (run E) = fst (run (reliable E))
  /\ same_relay (snd (run E)) (snd (run (reliable E))).
Proof.
  rewrite !run_eq.
  assert (Hst : exists a b,
             main_startup E initial = (Return tt, a)
             /\ main_startup (reliable E) initial = (Return tt, b)
             /\ same_relay a b).
  { unfold main_startup, bind, print_stderr, emit.
    change (SESSION_ID (reliable E)) with (SESSION_ID E).
    change (getcwd (reliable E)) with (getcwd E).
    destruct (log_to_snowflake_sim (u "session_start") [VStr (getcwd E)]
                (push (Err ((u "Starting Claude stream parser (session: "
                             ++ SESSION_ID E ++ u ")") ++ nl)) initial)
                (push (Err ((u "Starting Claude stream parser (session: "
                             ++ SESSION_ID E ++ u ")") ++ nl)) initial)
                (same_relay_refl _))
      as (a' & b' & -> & -> & (Ho & Hh & _ & _)).
    eexists _, _. split; [reflexivity|]. split; [reflexivity|].
    repeat split; assumption. }
  destruct Hst as (a & b & -> & -> & Hs).
  change (stdin (reliable E)) with (stdin E).
  destruct (main_for_sim (stdin E) a b Hs) as (r2 & a2 & b2 & -> & -> & Hs2).
  assert (H3 : exists r3 a3 b3,
             match r2 with
             | Raise e =>
                 if is_KeyboardInterrupt e then (Return tt, push notice a2)
                 else (r2, a2)
             | Return _ => (r2, a2)
             end = (r3, a3)
             /\ match r2 with
                | Raise e =>
                    if is_KeyboardInterrupt e then (Return tt, push notice b2)
                    else (r2, b2)
                | Return _ => (r2, b2)
                end = (r3, b3)
             /\ same_relay a3 b3).
  { destruct r2 as [[]|e].
    - eexists _, _, _. split; [reflexivity|]. split; [reflexivity|]. assumption.
    - destruct (is_KeyboardInterrupt e).
      + eexists _, _, _. split; [reflexivity|]. split; [reflexivity|].
        apply same_relay_err_l, same_relay_err_r. exact Hs2.
      + eexists _, _, _. split; [reflexivity|]. split; [reflexivity|]. assumption. }
  destruct H3 as (r3 & a3 & b3 & -> & -> & Hs3).
  destruct (main_finally_sim a3 b3 Hs3) as (a4 & b4 & -> & -> & Hs4).
  split; [reflexivity|exact Hs4].
Qed.



End HookFailures.


(** C7: a hook call that fails with an exception is caught inside
    [log_to_snowflake], which reports it on the diagnostic stream and
    returns normally; and a run in which hook calls fail (none being cut
    short by an interruption) ends in the same way, echoes the same lines,
    makes the same hook calls and counts the same as the run with a hook
    that never fails. *)
Theorem hook_failure_is_caught_and_reported (E : env) :
  uninterrupted_hooks E ->
  (forall kind args st e,
     run_outcome_of E (List.length (hooks st)) (hook_cmd E kind args) = Raises e ->
     is_Exception e = true ->
     log_to_snowflake E kind args st
     = (Return tt, push (hook_error e) (push (Hook (hook_cmd E kind args)) st)))
  /\ fst (run E) = fst (run (reliable E))
  /\ stdout (snd (run E)) = stdout (snd (run (reliable E)))
  /\ hooks (snd (run E)) = hooks (snd (run (reliable E)))
  /\ activity_count (snd (run E)) = activity_count (snd (run (reliable E)))
  /\ total_tokens (snd (run E)) = total_tokens (snd (run (reliable E))).
Proof.
  intros Hq. split.
  - intros kind args st e Ho He. rewrite log_to_snowflake_eq, Ho, He. reflexivity.
  - destruct (run_sim E Hq) as (Hr & Hs). split; [exact Hr|exact Hs].
Qed.

Lemma hook_failure_is_caught_and_reported_witness :
  fst (run hook_missing_env) = fst (run (reliable hook_missing_env))
  /\ stdout (snd (run hook_missing_env))
     = stdout (snd (run (reliable hook_missing_env)))
  /\ hooks (snd (run hook_missing_env))
     = hooks (snd (run (reliable hook_missing_env)))
  /\ activity_count (snd (run hook_missing_env))
     = activity_count (snd (run (reliable hook_missing_env)))
  /\ total_tokens (snd (run hook_missing_env))
     = total_tokens (snd (run (reliable hook_missing_env))).
Proof.
  apply (hook_failure_is_caught_and_reported hook_missing_env).
  intros n args. reflexivity.
Defined.

(** ** The line that stops the relay *)

(** C1, on the failing input: the stream holds three lines and ends
    normally, no hook call fails, and standard output receives the first
    two lines only.  The second line, a JSON array, makes [data.get] raise
    [AttributeError], which leaves the loop; the third line is never
    read. *)
Theorem passthrough_stops_at_json_array :
  stdin array_env = [search_line; line "[]"; search_line]
  /\ stdin_ends array_env = EndOfStream
  /\ stdout (snd (run array_env)) = [search_line; line "[]"]
  /\ stdout (snd (run array_env)) <> stdin array_env.
Proof.
  split; [reflexivity|]. split; [reflexivity|].
  split; [vm_compute; reflexivity|].
  vm_compute. discriminate.
Qed.

(** C4, on the failing input: the body of the loop raises
    [AttributeError] on a line that holds a JSON array, neither [except]
    clause of [main] catches it, and the run ends with that exception
    after the shutdown sequence: a third way out of the loop, besides the
    end of the stream and an interruption. *)
Theorem json_array_line_is_fatal :
  main_for_body array_env (line "[]") initial
  = (Raise (no_get (VList [])), push (Out (line "[]")) initial)
  /\ is_KeyboardInterrupt (no_get (VList [])) = false
  /\ fst (run array_env) = Raise (no_get (VList []))
  /\ hooks (snd (run array_env))
     = [ [logger; VStr (u "session_start"); VStr (u "/work")];
         [logger; VStr (u "tool_call"); VStr (u "search"); VStr (j "{'q': 'x'}");
          VStr (u "success"); VStr (u "100"); VStr (u "16")];
         [logger; VStr (u "session_end"); VStr (u "1"); VStr (u "16");
          VStr (u "250")] ].
Proof.
  repeat split; vm_compute; reflexivity.
Qed.

(** ** Examples of the specification *)

(** The falsy values: these seven shapes, and no others. *)
Lemma truthy_false_iff (v : value) :
  truthy v = false <->
  v = VNone \/ v = VBool false \/ v = VInt 0
  \/ (exists s, v = VFloat (S754_zero s))
  \/ v = VStr [] \/ v = VList [] \/ v = VDict [].
Proof.
  split.
  - destruct v as [|[]|z|f|s|l|d]; cbn; try discriminate; intros H.
    + now left.
    + right. now left.
    + right. right. left. destruct z; [reflexivity|discriminate|discriminate].
    + right. right. right. left. destruct f; try discriminate. now exists s.
    + do 4 right. left. destruct s; [reflexivity|discriminate].
    + do 5 right. left. destruct l; [reflexivity|discriminate].
    + do 6 right. destruct d; [reflexivity|discriminate].
  - intros [->|[->|[->|[[s ->]|[->|[->| ->]]]]]]; reflexivity.
Qed.

(** Empty input: [session_start], then [session_end] with both counters
    at 0, and nothing on standard output. *)
Example empty_input_run :
  fst (run empty_env) = Return tt
  /\ stdout (snd (run empty_env)) = []
  /\ hooks (snd (run empty_env))
     = [ [logger; VStr (u "session_start"); VStr (u "/work")];
         [logger; VStr (u "session_end"); VStr (u "0"); VStr (u "0");
          VStr (u "250")] ].
Proof. repeat split; vm_compute; reflexivity. Qed.

(** The run of [interrupted_env], event by event: the hook is missing, so
    every call is followed by its diagnostic; Ctrl-C ends the loop. *)
Example interrupted_run :
  run interrupted_env
  = (Return tt,
     {| trace :=
          [ banner interrupted_env;
            Hook (session_start_cmd interrupted_env);
            hook_error (Exn OSError (u "[Errno 2] No such file or directory"));
            Out search_line;
            Hook (hook_cmd interrupted_env (u "tool_call")
                    (tool_use_args search_event));
            hook_error (Exn OSError (u "[Errno 2] No such file or directory"));
            Out (line "not json at all");
            notice;
            Hook [logger; VStr (u "session_end"); VStr (u "1"); VStr (u "16");
                  VStr (u "250")];
            hook_error (Exn OSError (u "[Errno 2] No such file or directory"));
            Err (u "Session ended: 1 activities logged" ++ nl) ];
        activity_count := 1;
        total_tokens := 16 |}).
Proof. vm_compute; reflexivity. Qed.

(** * Further properties of the script *)

Section Further.

Variable E : env.

Local Open Scope Z_scope.

Lemma stdout_push_out l st : stdout (push (Out l) st) = stdout st ++ [l].
Proof. unfold stdout. cbn. now rewrite stdout_of_app. Qed.

Lemma hooks_push_out l st : hooks (push (Out l) st) = hooks st.
Proof. unfold hooks. cbn. rewrite hooks_of_app. cbn. apply app_nil_r. Qed.

(** The body of the loop, seen from outside: one echo, the hook calls of
    the line, the counters of the line. *)
Lemma main_for_body_summary l st :
  stdout (snd (main_for_body E l st)) = stdout st ++ [l]
  /\ hooks (snd (main_for_body E l st)) = hooks st ++ line_hooks E l
  /\ activity_count (snd (main_for_body E l st))
     = activity_count st + (if is_tool_use l then 1 else 0)
  /\ total_tokens (snd (main_for_body E l st)) = total_tokens st + line_tokens l.
Proof.
  unfold line_hooks, is_tool_use, line_tokens.
  destruct (loads (strip l)) as [v|] eqn:Hl.
  - destruct (is_dict v) eqn:Hv.
    + destruct v as [| | | | | |d]; try discriminate.
      destruct (eq_str (dict_lookup d (u "type")) (u "tool_use")) eqn:Ht.
      * apply eq_str_true in Ht.
        destruct (tool_use_step E l d st Hl Ht) as (Hh & Ha & Hk & Ho).
        repeat split; assumption.
      * destruct (eq_str (dict_lookup d (u "type")) (u "error")) eqn:He.
        -- apply eq_str_true in He.
           rewrite (main_for_body_error E l d st Hl He).
           destruct (log_to_snowflake_hooks E (u "tool_call") (error_args d)
                       (push (Out l) st)) as (Hh & Ho & Ha & Hk).
           rewrite Hh, Ho, Ha, Hk, stdout_push_out, hooks_push_out. cbn.
           repeat split; lia.
        -- rewrite (main_for_body_other E l d st Hl).
           ++ cbn [snd]. rewrite stdout_push_out, hooks_push_out, app_nil_r. cbn.
              repeat split; lia.
           ++ intros Hc. apply eq_str_true in Hc. congruence.
           ++ intros Hc. apply eq_str_true in Hc. congruence.
    + rewrite (main_for_body_not_dict E l v st Hl Hv). cbn [snd].
      rewrite stdout_push_out, hooks_push_out.
      destruct v; try discriminate; cbn; rewrite app_nil_r; repeat split; lia.
  - rewrite (main_for_body_not_json E l st Hl). cbn [snd].
    rewrite stdout_push_out, hooks_push_out, app_nil_r. cbn. repeat split; lia.
Qed.

(** The loop, seen from outside: it stops after some [n] lines, and
    everything it did is what those [n] lines ask for. *)
Lemma main_for_summary ls st :
  exists n,
    (n <= List.length ls)%nat
    /\ stdout (snd (main_for E ls st)) = stdout st ++ firstn n ls
    /\ hooks (snd (main_for E ls st))
       = hooks st ++ flat_map (line_hooks E) (firstn n ls)
    /\ activity_count (snd (main_for E ls st))
       = activity_count st + count_tool_use (firstn n ls)
    /\ total_tokens (snd (main_for E ls st))
       = total_tokens st + sum_tokens (firstn n ls).
Proof.
  revert st. induction ls as [|l rest IH]; intros st.
  - exists 0%nat. cbn [main_for firstn flat_map].
    unfold count_tool_use, sum_tokens. cbn. rewrite !app_nil_r.
    destruct (stdin_ends E); cbn; repeat split; lia.
  - cbn [main_for]. unfold bind.
    destruct (main_for_body_summary l st) as (Ho & Hh & Ha & Hk).
    destruct (main_for_body E l st) as [[[]|e] st1]; cbn [snd] in *.
    + destruct (IH st1) as (n & Hn & Ho' & Hh' & Ha' & Hk').
      exists (S n). cbn [firstn flat_map List.length].
      rewrite count_tool_use_cons, sum_tokens_cons.
      rewrite Ho', Hh', Ha', Hk', Ho, Hh, Ha, Hk, <- !app_assoc.
      repeat split; try lia.
    + exists 1%nat. cbn [firstn flat_map List.length].
      rewrite count_tool_use_cons, sum_tokens_cons.
      unfold count_tool_use, sum_tokens. cbn [filter map fold_right List.length].
      rewrite Ho, Hh, Ha, Hk, app_nil_r. cbn.
      repeat split; lia.
Qed.

(** A run either stops in the startup, on a [KeyboardInterrupt] during
    the [session_start] call, or goes through the loop and the shutdown
    sequence. *)
Lemma run_cases :
  (exists e,
     is_KeyboardInterrupt e = true
     /\ interrupts (run_outcome_of E 0 (session_start_cmd E)) = true
     /\ run E = (Raise e, started E []))
  \/ (exists diag0 r2 st2 note r st4 tail,
        interrupts (run_outcome_of E 0 (session_start_cmd E)) = false
        /\ Forall is_err diag0
        /\ main_for E (stdin E) (started E diag0) = (r2, st2)
        /\ Forall is_err note
        /\ main_finally E {| trace := trace st2 ++ note;
                             activity_count := activity_count st2;
                             total_tokens := total_tokens st2 |} = (r, st4)
        /\ Forall is_err tail
        /\ trace st4
           = trace st2 ++ note ++ [Hook (session_end_cmd E st2)] ++ tail
        /\ activity_count st4 = activity_count st2
        /\ total_tokens st4 = total_tokens st2
        /\ run E =
           (match r with
            | Return _ =>
                match r2 with
                | Raise e => if is_KeyboardInterrupt e then Return tt else r2
                | Return _ => r2
                end
            | Raise e' => Raise e'
            end, st4)).
Proof.
  destruct (interrupts (run_outcome_of E 0 (session_start_cmd E))) eqn:Hi.
  - left. rewrite run_eq, main_startup_eq.
    destruct (run_outcome_of E 0 (session_start_cmd E)) as [|e]; [discriminate|].
    cbn in Hi. exists e. split; [exact Hi|]. split; [reflexivity|].
    apply not_Exception_KeyboardInterrupt in Hi. now rewrite Hi.
  - right. destruct (main_startup_returns E Hi) as (diag0 & Hd0 & Hs).
    rewrite run_eq, Hs.
    destruct (main_for E (stdin E) (started E diag0)) as [r2 st2] eqn:Hf.
    set (note := match r2 with
                 | Raise e => if is_KeyboardInterrupt e then [notice] else []
                 | Return _ => []
                 end).
    set (st3 := {| trace := trace st2 ++ note;
                   activity_count := activity_count st2;
                   total_tokens := total_tokens st2 |}).
    assert (Hnote : Forall is_err note).
    { subst note. destruct r2 as [[]|e]; [constructor|].
      destruct (is_KeyboardInterrupt e); repeat constructor. }
    assert (H3 : match r2 with
                 | Raise e =>
                     if is_KeyboardInterrupt e then (Return tt, push notice st2)
                     else (r2, st2)
                 | Return _ => (r2, st2)
                 end
                 = (match r2 with
                    | Raise e => if is_KeyboardInterrupt e then Return tt else r2
                    | Return _ => r2
                    end, st3)).
    { subst st3 note. destruct r2 as [[]|e].
      - destruct st2; cbn. now rewrite app_nil_r.
      - destruct (is_KeyboardInterrupt e); [reflexivity|].
        destruct st2; cbn. now rewrite app_nil_r. }
    rewrite H3.
    destruct (main_finally_shape E st3) as (r & st4 & tail & Hfin & Htr & Ht & Ha & Hk).
    exists diag0, r2, st2, note, r, st4, tail.
    rewrite Hfin.
    assert (Hend : session_end_cmd E st3 = session_end_cmd E st2) by reflexivity.
    rewrite Hend in Htr. subst st3. cbn [trace activity_count total_tokens] in *.
    rewrite <- app_assoc in Htr.
    repeat split; try assumption.
    destruct r as [[]|e']; reflexivity.
Qed.

End Further.

(** ** [log_to_snowflake] *)

(** A call of [log_to_snowflake] enters exactly one hook invocation, with
    the logger path and the activity type in front of the arguments; it
    writes nothing to standard output and touches no counter; and the
    only exception it lets through is the [KeyboardInterrupt] that
    [subprocess.run] raised in that very call. *)
Theorem log_to_snowflake_contract
    (E : env) (kind : pystr) (args : list value) (st : state) :
  let cmd := [VStr (ACTIVITY_LOGGER E); VStr kind] ++ args in
  let r := fst (log_to_snowflake E kind args st) in
  let st' := snd (log_to_snowflake E kind args st) in
  hooks st' = hooks st ++ [cmd]
  /\ stdout st' = stdout st
  /\ activity_count st' = activity_count st
  /\ total_tokens st' = total_tokens st
  /\ (forall e, r = Raise e ->
        is_KeyboardInterrupt e = true
        /\ run_outcome_of E (List.length (hooks st)) cmd = Raises e).
Proof.
  cbv zeta.
  destruct (log_to_snowflake_hooks E kind args st) as (Hh & Ho & Ha & Hk).
  repeat split; try assumption.
  - rewrite log_to_snowflake_eq in H. unfold hook_cmd in H.
    destruct (run_outcome_of E _ _) as [|e0]; [discriminate|].
    destruct (is_Exception e0) eqn:He; [discriminate|].
    cbn in H. inversion H; subst. now apply not_Exception_KeyboardInterrupt.
  - rewrite log_to_snowflake_eq in H. unfold hook_cmd in H.
    destruct (run_outcome_of E _ _) as [|e0]; [discriminate|].
    destruct (is_Exception e0) eqn:He; [discriminate|].
    cbn in H. inversion H; subst. reflexivity.
Qed.



(** ** The body of the loop *)

(** Every line is echoed before anything else is done with it, exactly
    once, and causes at most one hook call: a hook that fails, hangs or is
    interrupted cannot hold back or repeat the line. *)
Theorem echo_comes_first (E : env) (l : pystr) (st : state) :
  exists evs,
    trace (snd (main_for_body E l st)) = trace st ++ Out l :: evs
    /\ stdout_of evs = []
    /\ (List.length (hooks_of evs) <= 1)%nat.
Proof.
  destruct (main_for_body E l st) as [r st'] eqn:Hb.
  pose proof (main_for_body_summary E l st) as (_ & Hh & _). rewrite Hb in Hh.
  cbn [snd] in Hh.
  apply main_for_body_effect in Hb as (_ & _ & (evs & Htr & Ho & _) & _).
  exists evs. cbn [snd]. repeat split; try assumption.
  unfold hooks in Hh. rewrite Htr, hooks_of_app in Hh. cbn in Hh.
  apply app_inv_head in Hh. unfold hooks_of. rewrite Hh. unfold line_hooks.
  destruct (loads (strip l)) as [[| | | | | |d]|]; cbn; try lia.
  destruct (eq_str _ _); [cbn; lia|]. destruct (eq_str _ _); cbn; lia.
Qed.

(** A line of blanks only (spaces, tabs, a bare newline) is echoed and
    nothing else happens: [strip] leaves the empty string, which
    [json.loads] refuses. *)
Theorem blank_line_is_only_echoed (E : env) (l : pystr) (st : state) :
  Forall (fun c => isspace c = true) l ->
  main_for_body E l st = (Return tt, push (Out l) st).
Proof.
  intros Hb. apply main_for_body_not_json.
  assert (Hs : lstrip l = []).
  { induction Hb as [|c l Hc _ IH]; [reflexivity|]. cbn. now rewrite Hc. }
  unfold strip, rstrip. rewrite Hs. reflexivity.
Qed.

Lemma blank_line_is_only_echoed_witness :
  main_for_body (example_env [] EndOfStream always_completes)
    (u "  " ++ [9%N] ++ nl) initial
  = (Return tt, push (Out (u "  " ++ [9%N] ++ nl)) initial).
Proof.
  apply (blank_line_is_only_echoed (example_env [] EndOfStream always_completes)).
  repeat constructor.
Defined.

(** ** The whole run *)

Section RunSummary.

Variable E : env.

Local Open Scope Z_scope.






(** What a run leaves behind, in terms of the lines it read. *)
Lemma run_summary :
  exists n,
    (n <= List.length (stdin E))%nat
    /\ stdout (snd (run E)) = firstn n (stdin E)
    /\ activity_count (snd (run E)) = count_tool_use (firstn n (stdin E))
    /\ total_tokens (snd (run E)) = sum_tokens (firstn n (stdin E))
    /\ (if interrupts (run_outcome_of E 0 (session_start_cmd E))
        then n = 0%nat /\ hooks (snd (run E)) = [session_start_cmd E]
        else hooks (snd (run E))
             = [session_start_cmd E]
               ++ flat_map (line_hooks E) (firstn n (stdin E))
               ++ [session_end_cmd E (snd (run E))]).
Proof.
  destruct (run_cases E)
    as [(e & _ & Hi & Hrun)
       |(diag0 & r2 & st2 & note & r & st4 & tail & Hi & Hd0 & Hf & Hnote & _
         & Htail & Htr & Ha & Hk & Hrun)].
  - exists 0%nat. rewrite Hrun, Hi. cbn [snd firstn].
    repeat split; try reflexivity. lia.
  - destruct (main_for_summary E (stdin E) (started E diag0))
      as (n & Hn & Ho & Hh & Ha2 & Hk2).
    rewrite Hf in *. cbn [snd] in *.
    rewrite (stdout_started E diag0 Hd0) in Ho. cbn [app] in Ho.
    assert (Hh0 : hooks (started E diag0) = [session_start_cmd E]).
    { unfold hooks, started. cbn [trace]. rewrite hooks_of_app.
      rewrite (hooks_of_errs diag0 Hd0). reflexivity. }
    rewrite Hh0 in Hh. cbn [started activity_count total_tokens] in Ha2, Hk2.
    exists n. rewrite Hrun, Hi. cbn [snd].
    rewrite (session_end_cmd_ext E st4 st2 Ha Hk).
    unfold stdout, hooks in *. rewrite Htr, !stdout_of_app, !hooks_of_app.
    rewrite (stdout_of_errs note Hnote), (stdout_of_errs tail Htail).
    rewrite (hooks_of_errs note Hnote), (hooks_of_errs tail Htail).
    rewrite Ho, Hh, Ha, Hk, Ha2, Hk2. cbn. rewrite !app_nil_r.
    repeat split; lia.
Qed.


End RunSummary.

(** In every run, however it ends, standard output is an initial part of
    the input: the lines read so far, each once and in order.  Nothing
    else is ever written to it. *)
Theorem stdout_is_a_prefix_of_stdin (E : env) :
  exists n,
    (n <= List.length (stdin E))%nat
    /\ stdout (snd (run E)) = firstn n (stdin E).
Proof.
  destruct (run_summary E) as (n & Hn & Ho & _). now exists n.
Qed.






(** A [KeyboardInterrupt] during the [session_end] call cuts the shutdown
    short: the summary is not printed, and that interrupt is what leaves
    [main], also when the loop had ended with another exception, which is
    lost. *)
Theorem interrupted_shutdown_skips_summary
    (E : env) (r2 : result unit) (st2 : state) (e : exn) :
  loop_run E = Some (r2, st2) ->
  run_outcome_of E (List.length (hooks st2)) (session_end_cmd E st2) = Raises e ->
  is_KeyboardInterrupt e = true ->
  fst (run E) = Raise e
  /\ exists note,
       Forall is_err note
       /\ trace (snd (run E))
          = trace st2 ++ note ++ [Hook (session_end_cmd E st2)].
Proof.
  intros Hl Ho Hk.
  destruct (loop_run_inv E _ _ Hl) as (diag0 & _ & Hs & Hf).
  apply not_Exception_KeyboardInterrupt in Hk.
  rewrite run_eq, Hs, Hf.
  assert (Hplain : (let '(r3, st3) := (r2, st2) in
                    match main_finally E st3 with
                    | (Return _, st4) => (r3, st4)
                    | (Raise e0, st4) => (Raise e0, st4)
                    end)
                   = (Raise e, push (Hook (session_end_cmd E st2)) st2)).
  { cbv zeta iota beta. rewrite main_finally_eq, Ho, Hk. reflexivity. }
  destruct r2 as [[]|e2].
  - rewrite Hplain. cbn [fst snd]. split; [reflexivity|].
    exists []. split; [constructor|reflexivity].
  - destruct (is_KeyboardInterrupt e2).
    + assert (Hn : main_finally E (push notice st2)
                   = (Raise e,
                      push (Hook (session_end_cmd E st2)) (push notice st2))).
      { rewrite main_finally_eq.
        replace (hooks (push notice st2)) with (hooks st2)
          by (symmetry; apply hooks_push_err).
        change (session_end_cmd E (push notice st2))
          with (session_end_cmd E st2).
        rewrite Ho, Hk. reflexivity. }
      cbv zeta iota beta. rewrite Hn. cbn [fst snd]. split; [reflexivity|].
      exists [notice]. split; [repeat constructor|].
      unfold push. cbn [trace]. now rewrite <- app_assoc.
    + rewrite Hplain. cbn [fst snd]. split; [reflexivity|].
      exists []. split; [constructor|reflexivity].
Qed.

Lemma interrupted_shutdown_skips_summary_witness :
  fst (run shutdown_interrupted_env) = Raise (Exn KeyboardInterrupt [])
  /\ exists note,
       Forall is_err note
       /\ trace (snd (run shutdown_interrupted_env))
          = trace (loop_state shutdown_interrupted_env) ++ note
            ++ [Hook (session_end_cmd shutdown_interrupted_env
                        (loop_state shutdown_interrupted_env))].
Proof.
  apply (interrupted_shutdown_skips_summary shutdown_interrupted_env
           (Raise (no_get (VList []))) (loop_state shutdown_interrupted_env)
           (Exn KeyboardInterrupt []));
    vm_compute; reflexivity.
Defined.





